(** * Account-erasure worker: a shallow embedding of [worker.ts]

    The repository holds two versions of the Cloudflare worker that erases
    a user's data from Supabase (relational tables and the auth record)
    and from an R2 bucket.  Both are embedded here: module [V1] is the
    first version (reference-tracked deletion, plain-text answers), module
    [V2] the second (per-step report, JSON answers).

    Every [await] of a backend client call is a step of an explicit
    state-passing computation over the backends' state, and every such
    call is written to a trace together with its outcome, so that
    statements of the form "no delete call is issued" or "the identity
    record is deleted last" are statements about that trace.  JavaScript
    exceptions are completions of kind [Thrown]; [try]/[catch] is
    [try_catch].

    Modelling choices:
    - a Supabase call resolves to [{ data, error }] ([Data] or [Error]) or
      rejects; a bucket call resolves or rejects;
    - [Promise.all] over the per-key deletes issues every call, in the
      order of the listing, and rejects when one of them does;
    - [new URL(url).pathname] and [String.prototype.toLowerCase] are
      functions of the environment, so that what is proved holds for the
      platform's own parser and case folding;
    - console output is diagnostic only and is not part of the model. *)

From Stdlib Require Import String Ascii List Bool Arith Lia.
Import ListNotations.
Open Scope string_scope.

(** ** Strings, as the worker uses them *)

(** The case folding of the reference platform: the letters A to Z are
    folded and every other character is left as it is, which is what
    [String.prototype.toLowerCase] does on a string of ASCII characters.
    The worker itself takes its folding from the environment. *)
Definition lower_ascii (c : ascii) : ascii :=
  let n := nat_of_ascii c in
  if (Nat.leb 65 n && Nat.leb n 90)%bool then ascii_of_nat (n + 32) else c.

Fixpoint ascii_toLowerCase (s : string) : string :=
  match s with
  | EmptyString => EmptyString
  | String c rest => String (lower_ascii c) (ascii_toLowerCase rest)
  end.

(** [s.startsWith(p)] *)
Definition startsWith (s p : string) : bool := String.prefix p s.

(** [s.split(sep)] for a one-character separator. *)
Fixpoint split (sep : ascii) (s : string) : list string :=
  match s with
  | EmptyString => [EmptyString]
  | String c rest =>
      if Ascii.eqb c sep then EmptyString :: split sep rest
      else match split sep rest with
           | piece :: pieces => String c piece :: pieces
           | [] => [String c EmptyString]
           end
  end.

(** [s.slice(1)] *)
Definition slice1 (s : string) : string :=
  match s with
  | EmptyString => EmptyString
  | String _ rest => rest
  end.

(** [s.replace(/\.[^/.]+$/, "")]: a final extension, that is a dot followed
    to the end of the string by one or more characters that are neither a
    slash nor a dot, is removed.  The match, when there is one, starts at
    the last dot of the string. *)
Definition plain_char (c : ascii) : bool :=
  negb (Ascii.eqb c "/" || Ascii.eqb c ".").

Fixpoint span_plain (l : list ascii) : list ascii * list ascii :=
  match l with
  | [] => ([], [])
  | c :: rest =>
      if plain_char c
      then let (ext, remainder) := span_plain rest in (c :: ext, remainder)
      else ([], l)
  end.

Definition strip_extension (s : string) : string :=
  match span_plain (rev (list_ascii_of_string s)) with
  | (_ :: _, dot :: stem) =>
      if Ascii.eqb dot "." then string_of_list_ascii (rev stem) else s
  | _ => s
  end.

(** ** Values exchanged with the platform and the backends *)

(** What the worker reads of a JSON value: only whether it is a string,
    and whether it is truthy. *)
Inductive JsValue : Type :=
| JsUndefined
| JsNull
| JsString (s : string)
| JsOther (truthy : bool).

(** The request body, as [request.json()] and the destructuring
    [const { user_id } = ...] see it. *)
Inductive Body : Type :=
| Malformed                      (* request.json() rejects with a SyntaxError *)
| JsonNull                       (* the body is null: destructuring throws *)
| JsonValue (user_id : JsValue). (* any other value, with its user_id property *)

Record Request : Type := mkRequest {
  method : string;
  Authorization : option string;   (* request.headers.get('Authorization') *)
  body : Body
}.

(** The report of the second version: a JavaScript object used as an
    ordered map from step name to status. *)
Definition Results : Type := list (string * string).

Fixpoint set_property (k v : string) (o : Results) : Results :=
  match o with
  | [] => [(k, v)]
  | (k', v') :: rest =>
      if String.eqb k' k then (k, v) :: rest
      else (k', v') :: set_property k v rest
  end.

Fixpoint get_property (k : string) (o : Results) : option string :=
  match o with
  | [] => None
  | (k', v) :: rest => if String.eqb k' k then Some v else get_property k rest
  end.

Inductive ResponseBody : Type :=
| Text (s : string)
| JsonError (error : string)                         (* { error } *)
| JsonDetails (message : string) (details : Results). (* { message, details } *)

Record Response : Type := mkResponse {
  status : nat;
  payload : ResponseBody
}.

(** A promise, once settled. *)
Inductive Promise (A : Type) : Type :=
| Resolved (v : A)
| Rejected (reason : string).
Arguments Resolved {A} v.
Arguments Rejected {A} reason.

(** The [{ data, error }] object a Supabase call resolves to. *)
Inductive Reply (A : Type) : Type :=
| Data (data : A)
| Error (message : string).
Arguments Data {A} data.
Arguments Error {A} message.

(** The columns the first version selects. *)
Record Prediction : Type := mkPrediction {
  prediction_id : string;
  input_url : option string;          (* null when absent *)
  output_url : option (list string)   (* [Some] when it is an array *)
}.

Record Training : Type := mkTraining {
  training_id : string;
  input_images : option string
}.

(** ** Backend calls and their trace *)

Inductive Call : Type :=
| GetUser (token : string)                 (* supabase.auth.getUser(token) *)
| Select (table column value : string)     (* .from(t).select(..).eq(c, v) *)
| Delete (table column value : string)     (* .from(t).delete().eq(c, v) *)
| ListObjects (prefix : string)            (* BUCKET.list({ prefix }) *)
| DeleteObjects (keys : list string)       (* BUCKET.delete(key or keys) *)
| DeleteUser (uid : string).               (* supabase.auth.admin.deleteUser(uid) *)

Inductive Outcome : Type :=
| Done
| Listed (keys : list string)
| Errored (message : string)
| Threw (reason : string).

Record Event : Type := mkEvent {
  call : Call;
  outcome_of : Outcome
}.

Definition is_delete (c : Call) : bool :=
  match c with
  | Delete _ _ _ | DeleteObjects _ | DeleteUser _ => true
  | GetUser _ | Select _ _ _ | ListObjects _ => false
  end.

Definition is_DeleteUser (c : Call) : bool :=
  match c with
  | DeleteUser _ => true
  | _ => false
  end.

Definition failed (o : Outcome) : bool :=
  match o with
  | Errored _ | Threw _ => true
  | Done | Listed _ => false
  end.

Definition threw (o : Outcome) : bool :=
  match o with
  | Threw _ => true
  | _ => false
  end.

(** The bindings of [env], together with the clients built from them and
    the platform's URL parser and case folding.  The backends are deterministic machines
    over a state [World] of their own; what a call answers may depend on
    that state in any way. *)
Record Env : Type := mkEnv {
  World : Type;
  auth_getUser : string -> World -> Promise (Reply (option string)) * World;
  select_predictions : string -> World -> Promise (Reply (list Prediction)) * World;
  select_trainings : string -> World -> Promise (Reply (list Training)) * World;
  delete_eq : string -> string -> string -> World -> Promise (Reply unit) * World;
  BUCKET_list : string -> World -> Promise (list string) * World;
  BUCKET_delete : list string -> World -> Promise unit * World;
  auth_admin_deleteUser : string -> World -> Promise (Reply unit) * World;
  (* [new URL(url).pathname]; [None] when the constructor throws *)
  URL_pathname : string -> option string;
  (* [s.toLowerCase()] *)
  toLowerCase : string -> string
}.

(** ** Computations *)

Inductive Completion (A : Type) : Type :=
| Normal (v : A)
| Thrown (reason : string).
Arguments Normal {A} v.
Arguments Thrown {A} reason.

Section Computations.
Variable E : Env.

(** The state a computation runs on: the backends, and the [results]
    object of the pipeline of the second version (a local object that
    its [catch] clause reads after the [try] block has written to it). *)
Record Heap : Type := mkHeap {
  world : World E;
  results : Results
}.

Record Run (A : Type) : Type := mkRun {
  outcome : Completion A;
  final : Heap;
  calls : list Event
}.
Arguments mkRun {A} _ _ _.
Arguments outcome {A} _.
Arguments final {A} _.
Arguments calls {A} _.

Definition M (A : Type) : Type := Heap -> Run A.

Definition ret {A} (v : A) : M A := fun h => mkRun (Normal v) h [].

Definition throw {A} (reason : string) : M A :=
  fun h => mkRun (Thrown reason) h [].

Definition bind {A B} (m : M A) (f : A -> M B) : M B :=
  fun h =>
    let r := m h in
    match outcome r with
    | Normal v =>
        let r' := f v (final r) in
        mkRun (outcome r') (final r') (calls r ++ calls r')
    | Thrown reason => mkRun (Thrown reason) (final r) (calls r)
    end.

(** [try { m } catch (e) { handler e }] *)
Definition try_catch {A} (m : M A) (handler : string -> M A) : M A :=
  fun h =>
    let r := m h in
    match outcome r with
    | Normal _ => r
    | Thrown reason =>
        let r' := handler reason (final r) in
        mkRun (outcome r') (final r') (calls r ++ calls r')
    end.

(** [await] of one backend call: the call is traced with its outcome,
    and a rejected promise is thrown. *)
Definition await {A} (c : Call) (op : World E -> Promise A * World E)
    (summary : A -> Outcome) : M A :=
  fun h =>
    let (p, w) := op (world h) in
    let h' := mkHeap w (results h) in
    match p with
    | Resolved v => mkRun (Normal v) h' [mkEvent c (summary v)]
    | Rejected reason => mkRun (Thrown reason) h' [mkEvent c (Threw reason)]
    end.

(** [await Promise.all(ms)]: every call of [ms] is issued, in order,
    whatever the others answer; the whole rejects when one of them does. *)
Fixpoint Promise_all {A} (ms : list (M A)) : M (list A) :=
  fun h =>
    match ms with
    | [] => mkRun (Normal []) h []
    | m :: rest =>
        let r := m h in
        let r' := Promise_all rest (final r) in
        mkRun (match outcome r, outcome r' with
               | Normal v, Normal vs => Normal (v :: vs)
               | Thrown reason, _ => Thrown reason
               | Normal _, Thrown reason => Thrown reason
               end)
              (final r') (calls r ++ calls r')
    end.

(** [for (const x of xs) { body x }] *)
Fixpoint for_of {A} (xs : list A) (body : A -> M unit) : M unit :=
  match xs with
  | [] => ret tt
  | x :: rest => bind (body x) (fun _ => for_of rest body)
  end.

Definition reply_outcome {A} (r : Reply A) : Outcome :=
  match r with
  | Data _ => Done
  | Error message => Errored message
  end.

(** The client calls of the two versions. *)
Definition getUser (token : string) : M (Reply (option string)) :=
  await (GetUser token) (auth_getUser E token) reply_outcome.

Definition from_select_predictions (user_id : string) : M (Reply (list Prediction)) :=
  await (Select "replicate_predictions" "user_id" user_id)
        (select_predictions E user_id) reply_outcome.

Definition from_select_trainings (user_id : string) : M (Reply (list Training)) :=
  await (Select "replicate_trainings" "user_id" user_id)
        (select_trainings E user_id) reply_outcome.

Definition from_delete_eq (table column value : string) : M (Reply unit) :=
  await (Delete table column value) (delete_eq E table column value) reply_outcome.

Definition bucket_list (prefix : string) : M (list string) :=
  await (ListObjects prefix) (BUCKET_list E prefix) Listed.

Definition bucket_delete (keys : list string) : M unit :=
  await (DeleteObjects keys) (BUCKET_delete E keys) (fun _ => Done).

Definition admin_deleteUser (uid : string) : M (Reply unit) :=
  await (DeleteUser uid) (auth_admin_deleteUser E uid) reply_outcome.

(** [await request.json()] followed by [const { user_id } = ...] *)
Definition request_json_user_id (request : Request) : M JsValue :=
  match body request with
  | Malformed => throw "SyntaxError"
  | JsonNull => throw "TypeError"
  | JsonValue user_id => ret user_id
  end.

(** [user_id.toLowerCase()] on a value that need not be a string. *)
Definition value_toLowerCase (v : JsValue) : M string :=
  match v with
  | JsString s => ret (toLowerCase E s)
  | _ => throw "TypeError"
  end.

Definition falsy (v : JsValue) : bool :=
  match v with
  | JsUndefined | JsNull => true
  | JsString s => String.eqb s ""
  | JsOther truthy => negb truthy
  end.

(** The local [results] object. *)
Definition new_results : M unit :=
  fun h => mkRun (Normal tt) (mkHeap (world h) []) [].

Definition set_result (k v : string) : M unit :=
  fun h => mkRun (Normal tt) (mkHeap (world h) (set_property k v (results h))) [].

Definition get_results : M Results :=
  fun h => mkRun (Normal (results h)) h [].

End Computations.

Arguments mkRun {E A} _ _ _.
Arguments outcome {E A} _.
Arguments final {E A} _.
Arguments calls {E A} _.
Arguments world {E} _.
Arguments results {E} _.
Arguments ret {E A} _ _.
Arguments throw {E A} _ _.
Arguments bind {E A B} _ _ _.
Arguments try_catch {E A} _ _ _.
Arguments Promise_all {E A} _ _.
Arguments for_of {E A} _ _ _.

Declare Scope worker_scope.
Delimit Scope worker_scope with worker.
Notation "x <- m ;; k" := (bind m (fun x => k))
  (at level 100, m at next level, right associativity) : worker_scope.
Notation "m ;; k" := (bind m (fun _ => k))
  (at level 100, right associativity) : worker_scope.
Open Scope worker_scope.

(** ** The first version of the worker *)

Module V1.
Section Worker.
Variable E : Env.

(** [deleteR2Object]: the URL is parsed before the [try] block is
    entered, a failure of [bucket.delete] is caught inside it. *)
Definition deleteR2Object (url : option string) : M E unit :=
  match url with
  | None => throw "TypeError"
  | Some u =>
      match URL_pathname E u with
      | None => throw "TypeError"
      | Some pathname =>
          let objectKey := slice1 pathname in
          try_catch (bucket_delete E [objectKey]) (fun _ => ret tt)
      end
  end.

Definition truthy_string (s : option string) : option string :=
  match s with
  | Some u => if String.eqb u "" then None else Some u
  | None => None
  end.

Definition deletePredictions (user_id : string) : M E unit :=
  r <- from_select_predictions E user_id ;;
  match r with
  | Error _ => ret tt
  | Data predictions =>
      for_of predictions (fun prediction =>
        match truthy_string (input_url prediction) with
        | Some u =>
            deleteR2Object (Some u) ;;
            deleteR2Object (Some (strip_extension u ++ "_mask.png"))
        | None => ret tt
        end ;;
        match output_url prediction with
        | Some urls => for_of urls (fun url => deleteR2Object (Some url))
        | None => ret tt
        end ;;
        from_delete_eq E "replicate_predictions" "id" (prediction_id prediction) ;;
        ret tt)
  end.

Definition deleteTrainings (user_id : string) : M E unit :=
  r <- from_select_trainings E user_id ;;
  match r with
  | Error _ => ret tt
  | Data trainings =>
      for_of trainings (fun training =>
        deleteR2Object (input_images training) ;;
        from_delete_eq E "replicate_trainings" "id" (training_id training) ;;
        ret tt)
  end.

Definition deletePushToken (user_id : string) : M E unit :=
  from_delete_eq E "push_tokens" "user_id" user_id ;;
  ret tt.

Definition deleteCoinsAndTransactions (user_id : string) : M E unit :=
  from_delete_eq E "user_credits" "user_id" user_id ;;
  from_delete_eq E "transactions" "user_id" user_id ;;
  ret tt.

Definition deleteUserFolder (user_id : string) : M E unit :=
  try_catch
    (objects <- bucket_list E (user_id ++ "/") ;;
     if Nat.ltb 0 (length objects) then bucket_delete E objects else ret tt)
    (fun _ => ret tt).

Definition deleteUserAuth (user_id : string) : M E unit :=
  admin_deleteUser E user_id ;;
  ret tt.

Definition deleteUserData (user_id : string) : M E unit :=
  deletePredictions user_id ;;
  deleteTrainings user_id ;;
  deletePushToken user_id ;;
  deleteCoinsAndTransactions user_id ;;
  deleteUserFolder user_id ;;
  deleteUserAuth user_id.

(** [fetch]; a [Thrown] completion is an exception that leaves the
    handler uncaught. *)
Definition fetch (request : Request) : M E Response :=
  if negb (String.eqb (method request) "POST")
  then ret (mkResponse 405 (Text "Method not allowed"))
  else
    match Authorization request with
    | None => ret (mkResponse 401 (Text "Unauthorized"))
    | Some authHeader =>
        if String.eqb authHeader "" || negb (startsWith authHeader "Bearer ")
        then ret (mkResponse 401 (Text "Unauthorized"))
        else
          let token := nth 1 (split " " authHeader) "" in
          r <- getUser E token ;;
          match r with
          | Error _ | Data None => ret (mkResponse 401 (Text "Unauthorized"))
          | Data (Some user_id') =>
              user_id <- request_json_user_id E request ;;
              if falsy user_id
              then ret (mkResponse 403 (Text "Unauthorized or invalid user_id"))
              else
                lowered <- value_toLowerCase E user_id ;;
                if negb (String.eqb lowered (toLowerCase E user_id'))
                then ret (mkResponse 403 (Text "Unauthorized or invalid user_id"))
                else
                  try_catch
                    (deleteUserData lowered ;;
                     ret (mkResponse 200 (Text "User data deleted successfully")))
                    (fun _ => ret (mkResponse 500 (Text "Error deleting user data")))
          end
    end.

End Worker.
End V1.

(** ** The second version of the worker *)

Module V2.
Section Worker.
Variable E : Env.

(** [error ? 'error' : 'success'] *)
Definition status_word {A} (r : Reply A) : string :=
  match r with
  | Error _ => "error"
  | Data _ => "success"
  end.

(** Step 5 of [deleteUserData], "Borrar carpeta del usuario en R2": the
    inner [try]/[catch] block on the bucket, under the name the first
    version gives to the same step. *)
Definition deleteUserFolder (user_id : string) : M E unit :=
  try_catch
    (objects <- bucket_list E (user_id ++ "/") ;;
     if Nat.ltb 0 (length objects)
     then
       Promise_all (map (fun key => bucket_delete E [key]) objects) ;;
       set_result E "r2Folder" "success"
     else set_result E "r2Folder" "no files found")
    (fun _ => set_result E "r2Folder" "error").

Definition deleteUserData (user_id : string) : M E Results :=
  new_results E ;;
  try_catch
    (predError <- from_delete_eq E "replicate_predictions" "user_id" user_id ;;
     set_result E "predictions" (status_word predError) ;;
     trainError <- from_delete_eq E "replicate_trainings" "user_id" user_id ;;
     set_result E "trainings" (status_word trainError) ;;
     tokenError <- from_delete_eq E "push_tokens" "user_id" user_id ;;
     set_result E "pushToken" (status_word tokenError) ;;
     creditsError <- from_delete_eq E "user_credits" "user_id" user_id ;;
     set_result E "credits" (status_word creditsError) ;;
     transError <- from_delete_eq E "transactions" "user_id" user_id ;;
     set_result E "transactions" (status_word transError) ;;
     deleteUserFolder user_id ;;
     authError <- admin_deleteUser E user_id ;;
     set_result E "auth" (status_word authError) ;;
     get_results E)
    (fun _ =>
       partial <- get_results E ;;
       ret (set_property "error" "Process failed" partial)).

Definition fetch (request : Request) : M E Response :=
  if negb (String.eqb (method request) "POST")
  then ret (mkResponse 405 (JsonError "Method not allowed"))
  else
    match Authorization request with
    | None => ret (mkResponse 401 (JsonError "Unauthorized"))
    | Some authHeader =>
        if negb (startsWith authHeader "Bearer ")
        then ret (mkResponse 401 (JsonError "Unauthorized"))
        else
          try_catch
            (user_id <- request_json_user_id E request ;;
             let token := nth 1 (split " " authHeader) "" in
             r <- getUser E token ;;
             match r with
             | Error _ => ret (mkResponse 401 (JsonError "Invalid authentication"))
             | Data None => ret (mkResponse 401 (JsonError "User not found"))
             | Data (Some user_id') =>
                 lowered <- value_toLowerCase E user_id ;;
                 if negb (String.eqb lowered (toLowerCase E user_id'))
                 then ret (mkResponse 403 (JsonError "Unauthorized access"))
                 else
                   result <- deleteUserData lowered ;;
                   ret (mkResponse 200
                          (JsonDetails "User data deleted successfully" result))
             end)
            (fun _ => ret (mkResponse 500 (JsonError "Internal server error")))
    end.

End Worker.
End V2.

(** ** A reference model of the three backends

    The worker's collaborators are outside the repository.  For the
    properties that speak of what is left in the stores after a run, the
    backends are instantiated by an in-memory model: a bucket that lists at
    most [limit] keys per call (R2 lists 1000 keys per call unless told
    otherwise) and whose delete ignores absent keys, tables
    whose filtered delete removes the matching rows, and an identity
    provider that resolves a token only to a live identity and reports an
    error when asked to delete an identity it does not hold.  A fault plan
    says, call by call, whether the backend answers, reports an error, or
    rejects. *)

Inductive Fault : Type :=
| Healthy
| ReportsError
| Rejects.

Record Row : Type := mkRow {
  row_id : string;
  row_user_id : string;
  row_input_url : option string;
  row_output_url : option (list string);
  row_input_images : option string
}.

Record Store : Type := mkStore {
  users : list string;                 (* ids of the live identities *)
  sessions : list (string * string);   (* token, id it was issued to *)
  rows : list (string * Row);          (* table, row *)
  objects : list string                (* keys held by the bucket *)
}.

Definition column_of (column : string) (r : Row) : option string :=
  if String.eqb column "user_id" then Some (row_user_id r)
  else if String.eqb column "id" then Some (row_id r)
  else None.

Definition row_matches (table column value : string) (tr : string * Row) : bool :=
  String.eqb (fst tr) table &&
  match column_of column (snd tr) with
  | Some v => String.eqb v value
  | None => false
  end.

Definition mem_string (s : string) (l : list string) : bool :=
  existsb (String.eqb s) l.

Fixpoint lookup_session (token : string) (l : list (string * string)) : option string :=
  match l with
  | [] => None
  | (t, uid) :: rest => if String.eqb t token then Some uid else lookup_session token rest
  end.

Definition row_prediction (r : Row) : Prediction :=
  mkPrediction (row_id r) (row_input_url r) (row_output_url r).

Definition row_training (r : Row) : Training :=
  mkTraining (row_id r) (row_input_images r).

(** The path of an [https://host/path] URL; other strings are refused. *)
Fixpoint from_slash (s : string) : string :=
  match s with
  | EmptyString => "/"
  | String c rest => if Ascii.eqb c "/" then s else from_slash rest
  end.

Definition https_pathname (url : string) : option string :=
  if String.prefix "https://" url
  then Some (from_slash (String.substring 8 (String.length url - 8) url))
  else None.

(** The effect of the three kinds of delete on the stores. *)
Definition without_rows (table column value : string) (s : Store) : Store :=
  mkStore (users s) (sessions s)
          (filter (fun tr => negb (row_matches table column value tr)) (rows s))
          (objects s).

Definition without_objects (keys : list string) (s : Store) : Store :=
  mkStore (users s) (sessions s) (rows s)
          (filter (fun k => negb (mem_string k keys)) (objects s)).

Definition without_user (uid : string) (s : Store) : Store :=
  mkStore (filter (fun u => negb (String.eqb u uid)) (users s))
          (sessions s) (rows s) (objects s).

(** One page of a listing. *)
Definition page (limit : nat) (prefix : string) (s : Store) : list string :=
  firstn limit (filter (String.prefix prefix) (objects s)).

Section ReferenceBackends.
Variable limit : nat.
Variable plan : Call -> Fault.

Definition supabase_call {A} (c : Call) (op : Store -> Reply A * Store) (s : Store)
    : Promise (Reply A) * Store :=
  match plan c with
  | Healthy => let (r, s') := op s in (Resolved r, s')
  | ReportsError => (Resolved (Error "backend error"), s)
  | Rejects => (Rejected "backend unreachable", s)
  end.

Definition bucket_call {A} (c : Call) (op : Store -> A * Store) (s : Store)
    : Promise A * Store :=
  match plan c with
  | Healthy => let (v, s') := op s in (Resolved v, s')
  | ReportsError | Rejects => (Rejected "bucket unreachable", s)
  end.

Definition store_getUser (token : string) : Store -> Promise (Reply (option string)) * Store :=
  supabase_call (GetUser token) (fun s =>
    match lookup_session token (sessions s) with
    | Some uid =>
        if mem_string uid (users s) then (Data (Some uid), s)
        else (Error "user not found", s)
    | None => (Error "invalid token", s)
    end).

Definition select_rows (table user_id : string) (s : Store) : list Row :=
  map snd (filter (row_matches table "user_id" user_id) (rows s)).

Definition store_select_predictions (user_id : string)
    : Store -> Promise (Reply (list Prediction)) * Store :=
  supabase_call (Select "replicate_predictions" "user_id" user_id) (fun s =>
    (Data (map row_prediction (select_rows "replicate_predictions" user_id s)), s)).

Definition store_select_trainings (user_id : string)
    : Store -> Promise (Reply (list Training)) * Store :=
  supabase_call (Select "replicate_trainings" "user_id" user_id) (fun s =>
    (Data (map row_training (select_rows "replicate_trainings" user_id s)), s)).

Definition store_delete_eq (table column value : string)
    : Store -> Promise (Reply unit) * Store :=
  supabase_call (Delete table column value) (fun s =>
    (Data tt, without_rows table column value s)).

Definition store_list (prefix : string) : Store -> Promise (list string) * Store :=
  bucket_call (ListObjects prefix) (fun s => (page limit prefix s, s)).

Definition store_delete (keys : list string) : Store -> Promise unit * Store :=
  bucket_call (DeleteObjects keys) (fun s => (tt, without_objects keys s)).

Definition store_deleteUser (uid : string) : Store -> Promise (Reply unit) * Store :=
  supabase_call (DeleteUser uid) (fun s =>
    if mem_string uid (users s)
    then (Data tt, without_user uid s)
    else (Error "User not found", s)).

Definition reference : Env :=
  mkEnv Store store_getUser store_select_predictions store_select_trainings
        store_delete_eq store_list store_delete store_deleteUser https_pathname
        ascii_toLowerCase.

End ReferenceBackends.

Definition healthy : Call -> Fault := fun _ => Healthy.

(** A request handled on given backends, with a fresh local state. *)
Definition start {E : Env} (w : World E) : Heap E := mkHeap E w [].

Definition response_status {E : Env} (r : Run E Response) : option nat :=
  match outcome r with
  | Normal resp => Some (status resp)
  | Thrown _ => None
  end.

Definition issued {E : Env} {A} (r : Run E A) : list Call :=
  map call (calls r).

Definition keys_under (prefix : string) (s : Store) : list string :=
  filter (String.prefix prefix) (objects s).

(** ** Vocabulary of the properties *)

(** The token [fetch] extracts, when the header carries the Bearer scheme:
    [authHeader.split(' ')[1]]. *)
Definition bearer_token (request : Request) : option string :=
  match Authorization request with
  | Some authHeader =>
      if startsWith authHeader "Bearer "
      then Some (nth 1 (split " " authHeader) "")
      else None
  | None => None
  end.

(** What the identity provider answers for a token on given backends. *)
Inductive Verdict : Type :=
| Live (uid : string)     (* resolved, without error, to a user *)
| NotLive                 (* resolved with an error, or without a user *)
| Unreachable.            (* the call itself rejected *)

Definition verify {E : Env} (w : World E) (token : string) : Verdict :=
  match fst (auth_getUser E token w) with
  | Resolved (Data (Some uid)) => Live uid
  | Resolved (Data None) => NotLive
  | Resolved (Error _) => NotLive
  | Rejected _ => Unreachable
  end.

(** The backends as the verification call leaves them. *)
Definition verified {E : Env} (w : World E) (token : string) : World E :=
  snd (auth_getUser E token w).

(** A request without a valid bearer token: no header, no Bearer scheme, or
    a token the provider does not resolve to a live identity. *)
Definition unauthenticated {E : Env} (w : World E) (request : Request) : Prop :=
  match bearer_token request with
  | None => True
  | Some token => verify w token = NotLive
  end.

(** A POST request whose token the provider resolves to [uid]. *)
Definition authenticated {E : Env} (w : World E) (request : Request)
    (token uid : string) : Prop :=
  method request = "POST" /\
  bearer_token request = Some token /\
  verify w token = Live uid.

Definition no_delete (l : list Call) : Prop :=
  Forall (fun c => is_delete c = false) l.

Definition no_DeleteUser (l : list Event) : bool :=
  forallb (fun ev => negb (is_DeleteUser (call ev))) l.

(** The calls that open the steps of the catalogue. *)
Definition relational_tables : list string :=
  ["replicate_predictions"; "replicate_trainings"; "push_tokens";
   "user_credits"; "transactions"].

Definition step_names : list string :=
  ["predictions"; "trainings"; "pushToken"; "credits"; "transactions";
   "r2Folder"; "auth"].

Definition catalogue_V2 (user_id : string) : list Call :=
  map (fun table => Delete table "user_id" user_id) relational_tables ++
  [ListObjects (user_id ++ "/")].

Definition catalogue_V1 (user_id : string) : list Call :=
  [Select "replicate_predictions" "user_id" user_id;
   Select "replicate_trainings" "user_id" user_id;
   Delete "push_tokens" "user_id" user_id;
   Delete "user_credits" "user_id" user_id;
   Delete "transactions" "user_id" user_id;
   ListObjects (user_id ++ "/")].

Definition attempted (c : Call) (l : list Event) : Prop :=
  exists o, In (mkEvent c o) l.

Definition all_attempted (cs : list Call) (l : list Event) : Prop :=
  Forall (fun c => attempted c l) cs.

(** Calls of the Supabase client, as opposed to calls of the bucket. *)
Definition is_bucket (c : Call) : bool :=
  match c with
  | ListObjects _ | DeleteObjects _ => true
  | _ => false
  end.

(** No Supabase call of the run rejected: failures of the relational store
    and of the identity provider came back in the [error] field. *)
Definition supabase_answered (l : list Event) : bool :=
  forallb (fun ev => negb (threw (outcome_of ev)) || is_bucket (call ev)) l.

Definition reported_error (c : Call) (l : list Event) : Prop :=
  exists message, In (mkEvent c (Errored message)) l.

Definition bucket_threw (l : list Event) : Prop :=
  exists ev, In ev l /\ is_bucket (call ev) = true /\ threw (outcome_of ev) = true.

(** ** Vocabulary of the run lemmas *)

(** A run preceded by calls already issued. *)
Definition prepend {E : Env} {A} (t : list Event) (r : Run E A) : Run E A :=
  mkRun (outcome r) (final r) (t ++ calls r).

(** The word step 5 of the second version records, from the outcome of the
    listing and the events of the deletes that followed it. *)
Definition folder_word (o : Outcome) (rest : list Event) : string :=
  match o with
  | Listed [] => "no files found"
  | Listed (_ :: _) =>
      if existsb (fun ev => threw (outcome_of ev)) rest then "error" else "success"
  | _ => "error"
  end.

(** The word a step of the second version records for a Supabase call. *)
Definition recorded (o : Outcome) : string :=
  match o with
  | Errored _ => "error"
  | _ => "success"
  end.

Definition answered (o : Outcome) : bool :=
  match o with
  | Done | Errored _ => true
  | Listed _ | Threw _ => false
  end.

Definition relational_events (user_id : string) (os : list Outcome) : list Event :=
  map (fun co => mkEvent (fst co) (snd co))
      (combine (map (fun table => Delete table "user_id" user_id) relational_tables) os).

Definition relational_report (os : list Outcome) : Results :=
  map (fun no => (fst no, recorded (snd no)))
      (combine (firstn 5 step_names) os).

(** A computation that never calls [auth.admin.deleteUser]. *)
Definition quiet {E : Env} {A} (m : M E A) : Prop :=
  forall h, no_DeleteUser (calls (m h)) = true.

(** A computation whose first backend call is [c], whatever it answers. *)
Definition opens_with {E : Env} {A} (c : Call) (m : M E A) : Prop :=
  forall h, exists o rest, calls (m h) = mkEvent c o :: rest.

(** The identity deletion, wherever it occurs in a trace, is its last call,
    and the steps of [catalogue] were opened before it. *)
Definition identity_last (user_id : string) (catalogue : list Call)
    (t : list Event) : Prop :=
  forall pre ev post,
    t = (pre ++ ev :: post)%list ->
    is_DeleteUser (call ev) = true ->
    post = [] /\ call ev = DeleteUser user_id /\
    no_DeleteUser pre = true /\ all_attempted catalogue pre.

(** The steps of the second version that call Supabase, by the name they
    are recorded under. *)
Definition supabase_steps (user_id : string) : list (string * Call) :=
  [("predictions", Delete "replicate_predictions" "user_id" user_id);
   ("trainings", Delete "replicate_trainings" "user_id" user_id);
   ("pushToken", Delete "push_tokens" "user_id" user_id);
   ("credits", Delete "user_credits" "user_id" user_id);
   ("transactions", Delete "transactions" "user_id" user_id);
   ("auth", DeleteUser user_id)].

(** A step that was attempted, and recorded as failed exactly when its call
    reported an error. *)
Definition isolated (rep : Results) (t : list Event) (step : string * Call) : Prop :=
  attempted (snd step) t /\
  (get_property (fst step) rep = Some "error" \/
   get_property (fst step) rep = Some "success") /\
  (get_property (fst step) rep = Some "error" <-> reported_error (snd step) t).

(** ** Sample backends and requests *)

(** One subject with rows in three tables and three objects of its own. *)
Definition sample_store : Store :=
  mkStore
    ["abc-123"; "other"]
    [("tok", "abc-123"); ("stale", "gone")]
    [("replicate_predictions",
      mkRow "p1" "abc-123" (Some "https://cdn.example/abc-123/in.png")
            (Some ["https://cdn.example/abc-123/out.png"]) None);
     ("replicate_trainings",
      mkRow "t1" "abc-123" None None (Some "https://cdn.example/abc-123/set.zip"));
     ("push_tokens", mkRow "k1" "abc-123" None None None);
     ("push_tokens", mkRow "k2" "other" None None None)]
    ["abc-123/a"; "abc-123/b"; "abc-123/c"; "other/a"].

(** The same subject with a training row that has no input images. *)
Definition sample_store_null_images : Store :=
  mkStore
    ["abc-123"]
    [("tok", "abc-123")]
    [("replicate_trainings", mkRow "t1" "abc-123" None None None)]
    ["abc-123/a"].

Definition request_of (verb : string) (header : option string) (b : Body) : Request :=
  mkRequest verb header b.

Definition sample_request : Request :=
  request_of "POST" (Some "Bearer tok") (JsonValue (JsString "ABC-123")).

(** Backends on which one call misbehaves. *)
Definition failing (c : Call) (f : Fault) : Call -> Fault :=
  fun c' =>
    match c, c' with
    | Delete t _ _, Delete t' _ _ => if String.eqb t t' then f else Healthy
    | DeleteUser _, DeleteUser _ => f
    | ListObjects _, ListObjects _ => f
    | DeleteObjects _, DeleteObjects _ => f
    | GetUser _, GetUser _ => f
    | Select t _ _, Select t' _ _ => if String.eqb t t' then f else Healthy
    | _, _ => Healthy
    end.

(** Healthy backends that list two keys per page, holding the sample. *)
Definition sample_env : Env := reference 2 healthy.

Definition sample_world : World sample_env := sample_store.

Definition sample_heap : Heap sample_env := start sample_world.

Definition stale_request : Request :=
  request_of "POST" (Some "Bearer stale") (JsonValue (JsString "gone")).

Definition get_request : Request :=
  request_of "GET" None (JsonValue (JsString "abc-123")).

Definition stale_malformed_request : Request :=
  request_of "POST" (Some "Bearer stale") Malformed.

Definition other_subject_request : Request :=
  request_of "POST" (Some "Bearer tok") (JsonValue (JsString "other")).

Definition null_images_env : Env := reference 2 healthy.

Definition null_images_heap : Heap null_images_env :=
  start (E:=null_images_env) sample_store_null_images.

Definition malformed_request : Request :=
  request_of "POST" (Some "Bearer tok") Malformed.

(** Healthy backends, except that the delete on one table reports an error. *)
Definition trainings_error_env : Env :=
  reference 2 (failing (Delete "replicate_trainings" "" "") ReportsError).

Definition trainings_error_heap : Heap trainings_error_env :=
  start (E:=trainings_error_env) sample_store.

(** Healthy backends, except that the delete on the first table rejects. *)
Definition predictions_reject_env : Env :=
  reference 2 (failing (Delete "replicate_predictions" "" "") Rejects).

Definition predictions_reject_heap : Heap predictions_reject_env :=
  start (E:=predictions_reject_env) sample_store.

(** The stores after the keys of a list were deleted one call at a time. *)
Definition without_each (keys : list string) (s : Store) : Store :=
  fold_left (fun s' key => without_objects [key] s') keys s.

(** The stores after the five filtered deletes of the second version. *)
Definition without_subject_rows (user_id : string) (s : Store) : Store :=
  fold_left (fun s' table => without_rows table "user_id" user_id s')
            relational_tables s.

(** The word the object-store step records on healthy backends. *)
Definition healthy_folder_word (listed : list string) : string :=
  match listed with
  | [] => "no files found"
  | _ :: _ => "success"
  end.

(** Healthy reference backends with a given page size. *)
Definition healthy_env (limit : nat) : Env := reference limit healthy.

Definition healthy_heap (limit : nat) (s : Store) : Heap (healthy_env limit) :=
  start (E:=healthy_env limit) s.

(** The report of the second version on healthy backends. *)
Definition healthy_report (listed : list string) (live : bool) : Results :=
  [("predictions", "success"); ("trainings", "success"); ("pushToken", "success");
   ("credits", "success"); ("transactions", "success");
   ("r2Folder", healthy_folder_word listed);
   ("auth", if live then "success" else "error")].

(** The stores as a run of the second version's pipeline leaves them. *)
Definition erased_store (limit : nat) (user_id : string) (s : Store) : Store :=
  let s1 := without_subject_rows user_id s in
  let s2 := without_each (page limit (user_id ++ "/") s1) s1 in
  if mem_string user_id (users s2) then without_user user_id s2 else s2.

(** The sample on healthy backends that list three keys per page. *)
Definition roomy_env : Env := healthy_env 3.

Definition roomy_heap : Heap roomy_env := healthy_heap 3 sample_store.

(** The backends after a first request was served. *)
Definition after_first_request_V1 : Heap sample_env :=
  start (world (final (V1.fetch sample_env sample_request sample_heap))).

Definition after_first_request_V2 : Heap sample_env :=
  start (world (final (V2.fetch sample_env sample_request sample_heap))).

Definition after_first_pipeline : Heap sample_env :=
  start (world (final (V2.deleteUserData sample_env "abc-123" sample_heap))).




(** ** Vocabulary of the further properties *)

(** A string without a space. *)
Fixpoint spaceless (s : string) : bool :=
  match s with
  | EmptyString => true
  | String c rest => negb (Ascii.eqb c " ") && spaceless rest
  end.

(** A string made of characters other than the slash and the dot. *)
Fixpoint plain (s : string) : bool :=
  match s with
  | EmptyString => true
  | String c rest => plain_char c && plain rest
  end.

(** A string without a dot. *)
Fixpoint dotless (s : string) : bool :=
  match s with
  | EmptyString => true
  | String c rest => negb (Ascii.eqb c ".") && dotless rest
  end.

Definition POST_request (header : string) (b : Body) : Request :=
  mkRequest "POST" (Some header) b.

Definition missing_subject_request : Request :=
  request_of "POST" (Some "Bearer tok") (JsonValue JsUndefined).

Definition null_body_request : Request :=
  request_of "POST" (Some "Bearer tok") JsonNull.

(** Healthy backends, except that the identity provider cannot be reached. *)
Definition provider_down_env : Env :=
  reference 2 (failing (GetUser "") Rejects).

Definition provider_down_world : World provider_down_env := sample_store.

Definition provider_down_heap : Heap provider_down_env := start provider_down_world.

(** A call of the second version's pipeline that concerns the subject: a
    filtered delete on one of the five tables, the listing of the
    subject's prefix, the delete of one key that this listing returned, or
    the deletion of the subject's identity. *)
Definition concerns (user_id : string) (t : list Event) (c : Call) : Prop :=
  (exists table, In table relational_tables /\ c = Delete table "user_id" user_id) \/
  c = ListObjects (user_id ++ "/") \/
  (exists key keys,
     c = DeleteObjects [key] /\ In key keys /\
     In (mkEvent (ListObjects (user_id ++ "/")) (Listed keys)) t) \/
  c = DeleteUser user_id.

Definition status_words : list string := ["success"; "error"; "no files found"].

(** The word step 5 of the second version records after a listing that
    returned [keys], from the events of the whole step. *)
Definition folder_word_after (keys : list string) (t : list Event) : string :=
  match keys with
  | [] => "no files found"
  | _ :: _ =>
      if existsb (fun ev => threw (outcome_of ev)) t then "error" else "success"
  end.

(** Healthy backends, except that every delete on the bucket rejects. *)
Definition bucket_delete_down_env : Env :=
  reference 2 (failing (DeleteObjects []) Rejects).

Definition bucket_delete_down_heap : Heap bucket_delete_down_env :=
  start (E:=bucket_delete_down_env) sample_store.

(** ** Vocabulary of the reference-tracked deletion of the first version *)

(** The object key [deleteR2Object] derives from a URL that parses. *)
Definition object_key (E : Env) (url : string) : string :=
  match URL_pathname E url with
  | Some pathname => slice1 pathname
  | None => EmptyString
  end.

(** The URLs the first version reads off a prediction row, in the order in
    which it deletes them: the input image and its mask, then the outputs. *)
Definition prediction_urls (p : Prediction) : list string :=
  (match V1.truthy_string (input_url p) with
   | Some u => [u; (strip_extension u ++ "_mask.png")%string]
   | None => []
   end ++
   match output_url p with
   | Some urls => urls
   | None => []
   end)%list.

Definition prediction_calls (E : Env) (p : Prediction) : list Call :=
  (map (fun u => DeleteObjects [object_key E u]) (prediction_urls p) ++
   [Delete "replicate_predictions" "id" (prediction_id p)])%list.

Definition training_calls (E : Env) (t : Training) : list Call :=
  match input_images t with
  | Some u => [DeleteObjects [object_key E u];
               Delete "replicate_trainings" "id" (training_id t)]
  | None => []
  end.

Definition parses (E : Env) (url : string) : Prop := URL_pathname E url <> None.

(** The relational client answers every filtered delete (it may report an
    error, it does not reject). *)
Definition deletes_are_answered (E : Env) : Prop :=
  forall table column value w,
    exists reply, fst (delete_eq E table column value w) = Resolved reply.

(** A computation that completes normally on every state and issues the
    calls [cs], in that order. *)
Definition traces {E : Env} {A} (m : M E A) (cs : list Call) : Prop :=
  forall h, (exists v, outcome (m h) = Normal v) /\ issued (m h) = cs.

Definition sample_prediction : Prediction :=
  mkPrediction "p1" (Some "https://cdn.example/abc-123/in.png")
               (Some ["https://cdn.example/abc-123/out.png"]).

Definition sample_training : Training :=
  mkTraining "t1" (Some "https://cdn.example/abc-123/set.zip").


(** Healthy backends, except that the selects on one table report an error. *)
Definition predictions_select_error_env : Env :=
  reference 2 (failing (Select "replicate_predictions" "" "") ReportsError).

Definition predictions_select_error_heap : Heap predictions_select_error_env :=
  start (E:=predictions_select_error_env) sample_store.

(** ** Vocabulary of the scope of the first version's calls *)

(** The calls the first version's pipeline may issue for a subject: selects
    on the two tables that hold URLs, filtered by the subject's id; deletes
    by row id on those two tables and deletes filtered by the subject's id
    on the three others; the listing of the subject's prefix; deletes of
    objects; the deletion of the subject's identity. *)
Definition V1_scope (user_id : string) (c : Call) : bool :=
  match c with
  | GetUser _ => false
  | Select table column value =>
      mem_string table ["replicate_predictions"; "replicate_trainings"] &&
      String.eqb column "user_id" && String.eqb value user_id
  | Delete table column value =>
      (mem_string table ["replicate_predictions"; "replicate_trainings"] &&
       String.eqb column "id") ||
      (mem_string table ["push_tokens"; "user_credits"; "transactions"] &&
       String.eqb column "user_id" && String.eqb value user_id)
  | ListObjects prefix => String.eqb prefix (user_id ++ "/")
  | DeleteObjects _ => true
  | DeleteUser uid => String.eqb uid user_id
  end.

(** A computation all of whose calls satisfy [P]. *)
Definition issues_only {E : Env} {A} (P : Call -> bool) (m : M E A) : Prop :=
  forall h, forallb (fun ev => P (call ev)) (calls (m h)) = true.

(** The identity deletion was not acknowledged in a trace: every call to it
    rejected. *)
Definition identity_not_acknowledged (t : list Event) : Prop :=
  Forall (fun ev => is_DeleteUser (call ev) = true -> threw (outcome_of ev) = true) t.

(** The stores after the second version's pipeline ran for a subject on
    healthy backends. *)
Definition after_healthy_run (limit : nat) (user_id : string) (s : Store) : Store :=
  world (final (V2.deleteUserData (healthy_env limit) user_id (healthy_heap limit s))).

Definition other_push_token : string * Row :=
  ("push_tokens", mkRow "k2" "other" None None None).

Definition subject_push_token : Row := mkRow "k1" "abc-123" None None None.

(** * Properties *)

Section Facts.
Variable E : Env.

Lemma await_run {A} (c : Call) (op : World E -> Promise A * World E) summary (h : Heap E) :
  await E c op summary h =
  match fst (op (world h)) with
  | Resolved v => mkRun (Normal v) (mkHeap E (snd (op (world h))) (results h)) [mkEvent c (summary v)]
  | Rejected reason => mkRun (Thrown reason) (mkHeap E (snd (op (world h))) (results h)) [mkEvent c (Threw reason)]
  end.
Proof. unfold await. destruct (op (world h)) as [[v|e] w]; reflexivity. Qed.

Lemma empty_header_not_bearer (authHeader : string) :
  (String.eqb authHeader "" || negb (startsWith authHeader "Bearer "))%bool
  = negb (startsWith authHeader "Bearer ").
Proof. destruct authHeader; reflexivity. Qed.

Lemma V1_fetch_no_token (request : Request) (h : Heap E) :
  method request = "POST" -> bearer_token request = None ->
  V1.fetch E request h = mkRun (Normal (mkResponse 401 (Text "Unauthorized"))) h [].
Proof.
  unfold V1.fetch, bearer_token. intros -> Hb. cbn.
  destruct (Authorization request) as [a|]; [|reflexivity].
  rewrite empty_header_not_bearer.
  destruct (startsWith a "Bearer "); [discriminate|reflexivity].
Qed.


Ltac enter_fetch Hm :=
  unfold response_status, issued, V1.fetch, V2.fetch;
  rewrite Hm, String.eqb_refl; cbn [negb];
  unfold unauthenticated, authenticated, bearer_token in *;
  destruct (Authorization _) as [authHeader|];
  [ rewrite ?empty_header_not_bearer;
    destruct (startsWith authHeader "Bearer "); cbn [negb] in * | ].

Ltac ask_provider :=
  unfold bind, try_catch, getUser, verify, verified in *;
  rewrite ?await_run in *;
  unfold start, ret, throw in *; cbn [world results outcome final calls] in *;
  repeat match goal with
  | H : context [fst (auth_getUser E ?t ?w)] |- _ =>
      destruct (fst (auth_getUser E t w)) as [[[?uid|]|?msg]|?reason] in *
  | |- context [fst (auth_getUser E ?t ?w)] =>
      destruct (fst (auth_getUser E t w)) as [[[?uid|]|?msg]|?reason] in *
  end.

Lemma fetch_other_method (request : Request) (h : Heap E) :
  method request <> "POST" ->
  V1.fetch E request h = mkRun (Normal (mkResponse 405 (Text "Method not allowed"))) h [] /\
  V2.fetch E request h = mkRun (Normal (mkResponse 405 (JsonError "Method not allowed"))) h [].
Proof.
  intros Hm. apply String.eqb_neq in Hm. unfold V1.fetch, V2.fetch.
  rewrite Hm. split; reflexivity.
Qed.

Lemma unauthenticated_V1 (w : World E) (request : Request) :
  unauthenticated w request ->
  no_delete (issued (V1.fetch E request (start w))) /\
  (method request = "POST" ->
   response_status (V1.fetch E request (start w)) = Some 401).
Proof.
  intros H. unfold no_delete.
  destruct (string_dec (method request) "POST") as [Hm|Hm].
  - enter_fetch Hm; try (cbn; split; [constructor|reflexivity]).
    ask_provider; try discriminate; cbn; (split; [repeat constructor|reflexivity]).
  - destruct (fetch_other_method request (start w) Hm) as [-> _].
    split; [constructor|contradiction].
Qed.

Lemma unauthenticated_V2 (w : World E) (request : Request) :
  unauthenticated w request ->
  no_delete (issued (V2.fetch E request (start w))) /\
  (method request = "POST" ->
   bearer_token request = None \/ (exists v, body request = JsonValue v) ->
   response_status (V2.fetch E request (start w)) = Some 401).
Proof.
  intros H. unfold no_delete.
  destruct (string_dec (method request) "POST") as [Hm|Hm].
  - pose proof (eq_refl (bearer_token request)) as Hb. revert Hb.
    unfold bearer_token at 1.
    enter_fetch Hm; intros Hb; try (cbn; split; [constructor|reflexivity]).
    unfold request_json_user_id.
    destruct (body request) as [| |v].
    + cbn. split; [constructor|]. intros _ [Hb'|[v Hb']]; discriminate.
    + cbn. split; [constructor|]. intros _ [Hb'|[v Hb']]; discriminate.
    + ask_provider; try discriminate; cbn; (split; [repeat constructor|reflexivity]).
  - destruct (fetch_other_method request (start w) Hm) as [_ ->].
    split; [constructor|contradiction].
Qed.

Lemma run_eta {A} (r : Run E A) : mkRun (outcome r) (final r) (calls r) = r.
Proof. destruct r; reflexivity. Qed.

Lemma prepend_nil {A} (r : Run E A) : prepend [] r = r.
Proof. apply run_eta. Qed.

Lemma bind_await {A B} c op summary (k : A -> M E B) (h : Heap E) :
  bind (await E c op summary) k h =
  match fst (op (world h)) with
  | Resolved v =>
      prepend [mkEvent c (summary v)]
              (k v (mkHeap E (snd (op (world h))) (results h)))
  | Rejected reason =>
      mkRun (Thrown reason) (mkHeap E (snd (op (world h))) (results h))
            [mkEvent c (Threw reason)]
  end.
Proof.
  unfold bind. rewrite await_run.
  destruct (fst (op (world h))); reflexivity.
Qed.

Lemma bind_normal {A B} (m : M E A) (k : A -> M E B) (h : Heap E) v :
  outcome (m h) = Normal v ->
  bind m k h = prepend (calls (m h)) (k v (final (m h))).
Proof. unfold bind. intros ->. reflexivity. Qed.

Lemma bind_thrown {A B} (m : M E A) (k : A -> M E B) (h : Heap E) reason :
  outcome (m h) = Thrown reason ->
  bind m k h = mkRun (Thrown reason) (final (m h)) (calls (m h)).
Proof. unfold bind. intros ->. reflexivity. Qed.

Lemma bind_set_result {B} key word (k : unit -> M E B) (h : Heap E) :
  bind (set_result E key word) k h =
  k tt (mkHeap E (world h) (set_property key word (results h))).
Proof. unfold bind, set_result. cbn. apply run_eta. Qed.

Lemma bind_new_results {B} (k : unit -> M E B) (h : Heap E) :
  bind (new_results E) k h = k tt (mkHeap E (world h) []).
Proof. unfold bind, new_results. cbn. apply run_eta. Qed.

Lemma bind_ret {A B} (v : A) (k : A -> M E B) (h : Heap E) :
  bind (ret v) k h = k v h.
Proof. unfold bind, ret. cbn. apply run_eta. Qed.

Lemma try_catch_prepend {A} (m : M E A) handler (h h' : Heap E) t (m' : M E A) :
  m h = prepend t (m' h') ->
  try_catch m handler h = prepend t (try_catch m' handler h').
Proof.
  unfold try_catch, prepend. intros ->. cbn.
  destruct (outcome (m' h')) eqn:Ho; cbn; [now rewrite Ho|].
  now rewrite app_assoc.
Qed.

Lemma try_catch_bind_await {A B} c op summary (k : A -> M E B) handler (h : Heap E) :
  try_catch (bind (await E c op summary) k) handler h =
  match fst (op (world h)) with
  | Resolved v =>
      prepend [mkEvent c (summary v)]
              (try_catch (k v) handler (mkHeap E (snd (op (world h))) (results h)))
  | Rejected reason =>
      prepend [mkEvent c (Threw reason)]
              (handler reason (mkHeap E (snd (op (world h))) (results h)))
  end.
Proof.
  destruct (fst (op (world h))) eqn:Hop.
  - apply try_catch_prepend. rewrite bind_await, Hop. reflexivity.
  - unfold try_catch. rewrite bind_await, Hop. reflexivity.
Qed.

Lemma try_catch_bind_set_result {B} key word (k : unit -> M E B) handler (h : Heap E) :
  try_catch (bind (set_result E key word) k) handler h =
  try_catch (k tt) handler (mkHeap E (world h) (set_property key word (results h))).
Proof. unfold try_catch. rewrite bind_set_result. reflexivity. Qed.

Lemma try_catch_bind_normal {A B} (m : M E A) (k : A -> M E B) handler (h : Heap E) v :
  outcome (m h) = Normal v ->
  try_catch (bind m k) handler h =
  prepend (calls (m h)) (try_catch (k v) handler (final (m h))).
Proof.
  intros Hm. apply try_catch_prepend. now apply bind_normal.
Qed.

Lemma try_catch_normal {A} (m : M E A) handler (h : Heap E) v :
  outcome (m h) = Normal v -> try_catch m handler h = m h.
Proof. unfold try_catch. intros ->. reflexivity. Qed.

Lemma try_catch_thrown {A} (m : M E A) handler (h : Heap E) reason :
  outcome (m h) = Thrown reason ->
  try_catch m handler h = prepend (calls (m h)) (handler reason (final (m h))).
Proof. unfold try_catch. intros ->. reflexivity. Qed.

Lemma bucket_delete_run (keys : list string) (h : Heap E) :
  bucket_delete E keys h =
  let h' := mkHeap E (snd (BUCKET_delete E keys (world h))) (results h) in
  match fst (BUCKET_delete E keys (world h)) with
  | Resolved _ => mkRun (Normal tt) h' [mkEvent (DeleteObjects keys) Done]
  | Rejected reason => mkRun (Thrown reason) h' [mkEvent (DeleteObjects keys) (Threw reason)]
  end.
Proof.
  unfold bucket_delete. rewrite await_run.
  destruct (fst (BUCKET_delete E keys (world h))) as [[]|]; reflexivity.
Qed.

Lemma delete_all_calls (keys : list string) (h : Heap E) :
  let r := Promise_all (map (fun key => bucket_delete E [key]) keys) h in
  map call (calls r) = map (fun key => DeleteObjects [key]) keys /\
  results (final r) = results h /\
  (forall ev, In ev (calls r) ->
     outcome_of ev = Done \/ threw (outcome_of ev) = true) /\
  (match outcome r with Normal _ => false | Thrown _ => true end
   = existsb (fun ev => threw (outcome_of ev)) (calls r)).
Proof.
  revert h. induction keys as [|k keys IH]; intros h.
  - cbn. repeat split; tauto.
  - cbn [map Promise_all]. cbv zeta. rewrite bucket_delete_run. cbv zeta.
    set (h' := mkHeap E (snd (BUCKET_delete E [k] (world h))) (results h)).
    destruct (fst (BUCKET_delete E [k] (world h))) as [[]|reason];
      cbn [outcome final calls]; fold h';
      destruct (IH h') as (IH1 & IH2 & IH3 & IH4);
      cbn zeta in *; cbn [map app existsb outcome_of threw orb].
    + repeat split.
      * now rewrite IH1.
      * now rewrite IH2.
      * intros ev [<-|Hin]; [now left|auto].
      * rewrite <- IH4. destruct (outcome (Promise_all _ h')); reflexivity.
    + repeat split.
      * now rewrite IH1.
      * now rewrite IH2.
      * intros ev [<-|Hin]; [now right|auto].
Qed.

(** Step 5 of the second version never throws, opens with the listing, and
    records one of three words. *)
Lemma V2_deleteUserFolder_run (uid : string) (h : Heap E) :
  let r := V2.deleteUserFolder E uid h in
  exists o rest,
    calls r = mkEvent (ListObjects (uid ++ "/")) o :: rest /\
    outcome r = Normal tt /\
    results (final r) = set_property "r2Folder" (folder_word o rest) (results h) /\
    map call rest =
      map (fun key => DeleteObjects [key])
          (match o with Listed keys => keys | _ => [] end) /\
    (threw o = true \/ exists keys, o = Listed keys).
Proof.
  cbv zeta. unfold V2.deleteUserFolder, bucket_list.
  rewrite try_catch_bind_await.
  destruct (fst (BUCKET_list E (uid ++ "/") (world h))) as [[|k keys]|reason].
  - exists (Listed []), []. cbn. repeat split; eauto.
  - cbn [Nat.ltb Nat.leb length].
    set (h' := mkHeap E _ _).
    destruct (delete_all_calls (k :: keys) h') as (D1 & D2 & D3 & D4).
    cbv zeta in *.
    set (pa := Promise_all _ h') in *.
    exists (Listed (k :: keys)), (calls pa).
    destruct (outcome pa) as [vs|reason] eqn:Hpa.
    + rewrite (try_catch_bind_normal _ _ _ _ vs Hpa).
      unfold folder_word, set_result, prepend, try_catch.
      cbn [outcome final calls results world app]. fold pa. rewrite <- D4, D2, app_nil_r.
      repeat split; eauto.
    + rewrite (try_catch_thrown _ _ _ reason)
        by (rewrite (bind_thrown _ _ _ reason Hpa); reflexivity).
      rewrite (bind_thrown _ _ _ reason Hpa).
      unfold folder_word, set_result, prepend.
      cbn [outcome final calls results world app]. fold pa. rewrite <- D4, D2, app_nil_r.
      repeat split; eauto.
  - exists (Threw reason), []. cbn. repeat split; eauto.
Qed.

Lemma status_word_recorded {A} (r : Reply A) :
  V2.status_word r = recorded (reply_outcome r).
Proof. destruct r; reflexivity. Qed.

Lemma answered_reply {A} (r : Reply A) : answered (reply_outcome r) = true.
Proof. destruct r; reflexivity. Qed.

Ltac relational_step :=
  rewrite try_catch_bind_await;
  match goal with
  | |- context [fst (delete_eq E ?t ?c ?v ?w)] =>
      let r := fresh "reply" in
      let reason := fresh "reason" in
      set (h' := mkHeap E (snd (delete_eq E t c v w)) _);
      destruct (fst (delete_eq E t c v w)) as [r|reason];
      [ rewrite try_catch_bind_set_result; subst h'; cbn [world results]
      | subst h' ]
  end.

Lemma V2_deleteUserData_shape (uid : string) (h : Heap E) :
  let r := V2.deleteUserData E uid h in
  exists rep os,
    outcome r = Normal rep /\
    forallb answered os = true /\
    ((length os < 5 /\
      exists reason,
        calls r = relational_events uid (os ++ [Threw reason])%list /\
        rep = (relational_report os ++ [("error", "Process failed")])%list)
     \/
     (length os = 5 /\
      exists oL rest oA,
        calls r = (relational_events uid os ++
                   mkEvent (ListObjects (uid ++ "/")) oL :: rest ++
                   [mkEvent (DeleteUser uid) oA])%list /\
        map call rest =
          map (fun key => DeleteObjects [key])
              (match oL with Listed keys => keys | _ => [] end) /\
        (threw oL = true \/ exists keys, oL = Listed keys) /\
        (threw oA = true \/ answered oA = true) /\
        rep = (relational_report os ++
               ("r2Folder", folder_word oL rest) ::
               (if threw oA then [("error", "Process failed")]
                else [("auth", recorded oA)]))%list)).
Proof.
  cbv zeta. unfold V2.deleteUserData. rewrite bind_new_results.
  unfold from_delete_eq.
  relational_step.
  2:{ exists [("error", "Process failed")], []. cbn. repeat split; auto.
      left. split; [lia|]. exists reason. split; reflexivity. }
  relational_step.
  2:{ eexists _, [reply_outcome reply]. cbn. rewrite answered_reply. repeat split; auto.
      left. split; [lia|]. exists reason. rewrite status_word_recorded. split; reflexivity. }
  relational_step.
  2:{ eexists _, [reply_outcome reply; reply_outcome reply0]. cbn. rewrite !answered_reply.
      repeat split; auto.
      left. split; [lia|]. exists reason. rewrite !status_word_recorded. split; reflexivity. }
  relational_step.
  2:{ eexists _, [reply_outcome reply; reply_outcome reply0; reply_outcome reply1]. cbn.
      rewrite !answered_reply. repeat split; auto.
      left. split; [lia|]. exists reason. rewrite !status_word_recorded. split; reflexivity. }
  relational_step.
  2:{ eexists _, [reply_outcome reply; reply_outcome reply0; reply_outcome reply1; reply_outcome reply2]. cbn.
      rewrite !answered_reply. repeat split; auto.
      left. split; [lia|]. exists reason. rewrite !status_word_recorded. split; reflexivity. }
  set (h5 := mkHeap E _ _).
  destruct (V2_deleteUserFolder_run uid h5) as (oL & rest & F1 & F2 & F3 & F4 & F5).
  cbv zeta in *.
  rewrite (try_catch_bind_normal _ _ _ _ tt F2).
  unfold admin_deleteUser. rewrite try_catch_bind_await.
  set (os := [reply_outcome reply; reply_outcome reply0; reply_outcome reply1;
              reply_outcome reply2; reply_outcome reply3]).
  destruct (fst (auth_admin_deleteUser E uid _)) as [rA|reason].
  - rewrite try_catch_bind_set_result.
    eexists _, os. cbn. rewrite !answered_reply. split; [reflexivity|]. split; [reflexivity|].
    right. split; [reflexivity|]. exists oL, rest, (reply_outcome rA).
    rewrite F1, F3. subst h5. cbn [results].
    rewrite !status_word_recorded.
    assert (Ht : threw (reply_outcome rA) = false) by (destruct rA; reflexivity).
    rewrite Ht, answered_reply. cbn. repeat split; auto.
  - eexists _, os. cbn. rewrite !answered_reply. split; [reflexivity|]. split; [reflexivity|].
    right. split; [reflexivity|]. exists oL, rest, (Threw reason).
    rewrite F1, F3. subst h5. cbn [results].
    rewrite !status_word_recorded. cbn. repeat split; auto.
Qed.

(** *** The first version: which calls a step may issue *)

Lemma calls_bind {A B} (m : M E A) (k : A -> M E B) (h : Heap E) :
  calls (bind m k h) =
  (calls (m h) ++
   match outcome (m h) with
   | Normal v => calls (k v (final (m h)))
   | Thrown _ => []
   end)%list.
Proof.
  unfold bind. destruct (outcome (m h)); cbn; [reflexivity|].
  now rewrite app_nil_r.
Qed.

Lemma calls_try_catch {A} (m : M E A) handler (h : Heap E) :
  calls (try_catch m handler h) =
  (calls (m h) ++
   match outcome (m h) with
   | Normal _ => []
   | Thrown reason => calls (handler reason (final (m h)))
   end)%list.
Proof.
  unfold try_catch. destruct (outcome (m h)); cbn; [|reflexivity].
  now rewrite app_nil_r.
Qed.

Lemma no_DeleteUser_app (l l' : list Event) :
  no_DeleteUser (l ++ l')%list = no_DeleteUser l && no_DeleteUser l'.
Proof. apply forallb_app. Qed.

Lemma quiet_ret {A} (v : A) : quiet (ret (E:=E) v).
Proof. intros h. reflexivity. Qed.

Lemma quiet_throw {A} reason : quiet (throw (E:=E) (A:=A) reason).
Proof. intros h. reflexivity. Qed.

Lemma quiet_await {A} c (op : World E -> Promise A * World E) summary :
  is_DeleteUser c = false -> quiet (await E c op summary).
Proof.
  intros Hc h. rewrite await_run.
  destruct (fst (op (world h))); cbn; now rewrite Hc.
Qed.

Lemma quiet_bind {A B} (m : M E A) (k : A -> M E B) :
  quiet m -> (forall v, quiet (k v)) -> quiet (bind m k).
Proof.
  intros Hm Hk h. rewrite calls_bind, no_DeleteUser_app, Hm.
  destruct (outcome (m h)); [apply Hk|reflexivity].
Qed.

Lemma quiet_try_catch {A} (m : M E A) handler :
  quiet m -> (forall reason, quiet (handler reason)) -> quiet (try_catch m handler).
Proof.
  intros Hm Hk h. rewrite calls_try_catch, no_DeleteUser_app, Hm.
  destruct (outcome (m h)); [reflexivity|apply Hk].
Qed.

Lemma quiet_for_of {A} (xs : list A) (body : A -> M E unit) :
  (forall x, quiet (body x)) -> quiet (for_of xs body).
Proof.
  intros Hb. induction xs as [|x xs IH]; cbn [for_of].
  - apply quiet_ret.
  - apply quiet_bind; auto.
Qed.

Lemma quiet_if {A} (b : bool) (m m' : M E A) :
  quiet m -> quiet m' -> quiet (if b then m else m').
Proof. destruct b; auto. Qed.

Create HintDb quiet.
Hint Resolve quiet_ret quiet_throw quiet_bind quiet_try_catch quiet_for_of
  quiet_if : quiet.
Hint Extern 1 (quiet (await _ _ _ _)) => apply quiet_await; reflexivity : quiet.

Lemma quiet_deleteR2Object url : quiet (V1.deleteR2Object E url).
Proof.
  unfold V1.deleteR2Object, bucket_delete.
  destruct url as [u|]; [destruct (URL_pathname E u)|]; auto with quiet.
Qed.
Hint Resolve quiet_deleteR2Object : quiet.

Lemma quiet_deletePredictions uid : quiet (V1.deletePredictions E uid).
Proof.
  unfold V1.deletePredictions, from_select_predictions, from_delete_eq.
  apply quiet_bind; [auto with quiet|]. intros [predictions|message]; [|auto with quiet].
  apply quiet_for_of. intros prediction.
  repeat (apply quiet_bind; [|intros ?]); auto with quiet.
  - destruct (V1.truthy_string _); auto with quiet.
  - destruct (output_url prediction); auto with quiet.
Qed.

Lemma quiet_deleteTrainings uid : quiet (V1.deleteTrainings E uid).
Proof.
  unfold V1.deleteTrainings, from_select_trainings, from_delete_eq.
  apply quiet_bind; [auto with quiet|]. intros [trainings|message]; auto 10 with quiet.
Qed.

Lemma quiet_deletePushToken uid : quiet (V1.deletePushToken E uid).
Proof. unfold V1.deletePushToken, from_delete_eq. auto with quiet. Qed.

Lemma quiet_deleteCoinsAndTransactions uid :
  quiet (V1.deleteCoinsAndTransactions E uid).
Proof. unfold V1.deleteCoinsAndTransactions, from_delete_eq. auto 10 with quiet. Qed.

Lemma quiet_deleteUserFolder uid : quiet (V1.deleteUserFolder E uid).
Proof.
  unfold V1.deleteUserFolder, bucket_list, bucket_delete.
  apply quiet_try_catch; [|auto with quiet].
  apply quiet_bind; [auto with quiet|]. intros objects. auto with quiet.
Qed.

Lemma opens_bind_await {A B} c (op : World E -> Promise A * World E) summary
    (k : A -> M E B) :
  opens_with c (bind (await E c op summary) k).
Proof.
  intros h. rewrite bind_await.
  destruct (fst (op (world h))); cbn; eauto.
Qed.

Lemma opens_try_catch {A} c (m : M E A) handler :
  opens_with c m -> opens_with c (try_catch m handler).
Proof.
  intros Hm h. rewrite calls_try_catch.
  destruct (Hm h) as (o & rest & ->). cbn. eauto.
Qed.

Lemma opens_deletePredictions uid :
  opens_with (Select "replicate_predictions" "user_id" uid) (V1.deletePredictions E uid).
Proof. apply opens_bind_await. Qed.

Lemma opens_deleteTrainings uid :
  opens_with (Select "replicate_trainings" "user_id" uid) (V1.deleteTrainings E uid).
Proof. apply opens_bind_await. Qed.

Lemma opens_deletePushToken uid :
  opens_with (Delete "push_tokens" "user_id" uid) (V1.deletePushToken E uid).
Proof. apply opens_bind_await. Qed.

Lemma opens_deleteUserFolder uid :
  opens_with (ListObjects (uid ++ "/")) (V1.deleteUserFolder E uid).
Proof. apply opens_try_catch, opens_bind_await. Qed.

Lemma deleteCoinsAndTransactions_calls uid (h : Heap E) :
  let r := V1.deleteCoinsAndTransactions E uid h in
  exists o rest,
    calls r = mkEvent (Delete "user_credits" "user_id" uid) o :: rest /\
    (forall v, outcome r = Normal v ->
       exists o', rest = [mkEvent (Delete "transactions" "user_id" uid) o']).
Proof.
  cbv zeta. unfold V1.deleteCoinsAndTransactions, from_delete_eq.
  rewrite bind_await.
  destruct (fst (delete_eq E "user_credits" "user_id" uid (world h))) as [reply|reason].
  - rewrite bind_await.
    destruct (fst (delete_eq E "transactions" "user_id" uid _)) as [reply'|reason].
    + cbn. eauto.
    + cbn. do 2 eexists. split; [reflexivity|]. intros v Hv. discriminate.
  - cbn. do 2 eexists. split; [reflexivity|]. intros v Hv. discriminate.
Qed.

Lemma attempted_app_l c (l l' : list Event) :
  attempted c l -> attempted c (l ++ l')%list.
Proof. intros [o Ho]. exists o. apply in_or_app. now left. Qed.

Lemma attempted_app_r c (l l' : list Event) :
  attempted c l' -> attempted c (l ++ l')%list.
Proof. intros [o Ho]. exists o. apply in_or_app. now right. Qed.

Lemma attempted_head c o (l : list Event) : attempted c (mkEvent c o :: l).
Proof. exists o. now left. Qed.

Lemma attempted_cons c ev (l : list Event) : attempted c l -> attempted c (ev :: l).
Proof. intros [o Ho]. exists o. now right. Qed.

(** The pipeline of the first version either stops on an exception before
    the identity deletion is reached, or ends with it. *)
Lemma V1_deleteUserData_shape (uid : string) (h : Heap E) :
  let r := V1.deleteUserData E uid h in
  (no_DeleteUser (calls r) = true /\ exists reason, outcome r = Thrown reason) \/
  (exists body oA,
     calls r = (body ++ [mkEvent (DeleteUser uid) oA])%list /\
     no_DeleteUser body = true /\
     all_attempted (catalogue_V1 uid) body /\
     (outcome r = Normal tt /\ answered oA = true \/
      (exists reason, outcome r = Thrown reason) /\ threw oA = true)).
Proof.
  cbv zeta. unfold V1.deleteUserData.
  pose proof (quiet_deletePredictions uid h) as Q1.
  destruct (opens_deletePredictions uid h) as (o1 & rest1 & O1).
  destruct (outcome (V1.deletePredictions E uid h)) as [[]|reason] eqn:H1.
  2:{ rewrite (bind_thrown _ _ _ reason H1). left. cbn. eauto. }
  rewrite (bind_normal _ _ _ tt H1).
  set (h1 := final (V1.deletePredictions E uid h)).
  pose proof (quiet_deleteTrainings uid h1) as Q2.
  destruct (opens_deleteTrainings uid h1) as (o2 & rest2 & O2).
  destruct (outcome (V1.deleteTrainings E uid h1)) as [[]|reason] eqn:H2.
  2:{ rewrite (bind_thrown _ _ _ reason H2). left. cbn.
      rewrite no_DeleteUser_app, Q1, Q2. eauto. }
  rewrite (bind_normal _ _ _ tt H2).
  set (h2 := final (V1.deleteTrainings E uid h1)).
  pose proof (quiet_deletePushToken uid h2) as Q3.
  destruct (opens_deletePushToken uid h2) as (o3 & rest3 & O3).
  destruct (outcome (V1.deletePushToken E uid h2)) as [[]|reason] eqn:H3.
  2:{ rewrite (bind_thrown _ _ _ reason H3). left. cbn.
      rewrite !no_DeleteUser_app, Q1, Q2, Q3. eauto. }
  rewrite (bind_normal _ _ _ tt H3).
  set (h3 := final (V1.deletePushToken E uid h2)).
  pose proof (quiet_deleteCoinsAndTransactions uid h3) as Q4.
  destruct (deleteCoinsAndTransactions_calls uid h3) as (o4 & rest4 & O4 & T4).
  cbv zeta in *.
  destruct (outcome (V1.deleteCoinsAndTransactions E uid h3)) as [[]|reason] eqn:H4.
  2:{ rewrite (bind_thrown _ _ _ reason H4). left. cbn.
      rewrite !no_DeleteUser_app, Q1, Q2, Q3, Q4. eauto. }
  destruct (T4 tt eq_refl) as (o4' & ->).
  rewrite (bind_normal _ _ _ tt H4).
  set (h4 := final (V1.deleteCoinsAndTransactions E uid h3)).
  pose proof (quiet_deleteUserFolder uid h4) as Q5.
  destruct (opens_deleteUserFolder uid h4) as (o5 & rest5 & O5).
  destruct (outcome (V1.deleteUserFolder E uid h4)) as [[]|reason] eqn:H5.
  2:{ rewrite (bind_thrown _ _ _ reason H5). left. cbn.
      rewrite !no_DeleteUser_app, Q1, Q2, Q3, Q4, Q5. eauto. }
  rewrite (bind_normal _ _ _ tt H5).
  set (h5 := final (V1.deleteUserFolder E uid h4)).
  right.
  exists (calls (V1.deletePredictions E uid h) ++ calls (V1.deleteTrainings E uid h1) ++
          calls (V1.deletePushToken E uid h2) ++
          calls (V1.deleteCoinsAndTransactions E uid h3) ++
          calls (V1.deleteUserFolder E uid h4))%list.
  unfold V1.deleteUserAuth, admin_deleteUser. rewrite bind_await.
  destruct (fst (auth_admin_deleteUser E uid (world h5))) as [reply|reason].
  - exists (reply_outcome reply). unfold prepend; cbn [calls outcome final ret].
    rewrite !no_DeleteUser_app, Q1, Q2, Q3, Q4, Q5, <- !app_assoc.
    split; [reflexivity|]. split; [reflexivity|]. split.
    + rewrite O1, O2, O3, O4, O5. unfold all_attempted, catalogue_V1.
      repeat constructor.
      * apply attempted_head.
      * apply attempted_app_r, attempted_head.
      * do 2 apply attempted_app_r. apply attempted_head.
      * do 3 apply attempted_app_r. apply attempted_head.
      * do 3 apply attempted_app_r. apply attempted_cons, attempted_head.
      * do 4 apply attempted_app_r. apply attempted_head.
    + left. split; [reflexivity|]. destruct reply; reflexivity.
  - exists (Threw reason). unfold prepend; cbn [calls outcome final ret].
    rewrite !no_DeleteUser_app, Q1, Q2, Q3, Q4, Q5, <- !app_assoc.
    split; [reflexivity|]. split; [reflexivity|]. split.
    + rewrite O1, O2, O3, O4, O5. unfold all_attempted, catalogue_V1.
      repeat constructor.
      * apply attempted_head.
      * apply attempted_app_r, attempted_head.
      * do 2 apply attempted_app_r. apply attempted_head.
      * do 3 apply attempted_app_r. apply attempted_head.
      * do 3 apply attempted_app_r. apply attempted_cons, attempted_head.
      * do 4 apply attempted_app_r. apply attempted_head.
    + right. split; [eauto|reflexivity].
Qed.

(** *** The gate of [fetch] on an authenticated request *)

Ltac authenticated_entry Hauth :=
  destruct Hauth as (Hm & Hb & Hv);
  unfold V1.fetch, V2.fetch;
  rewrite Hm, String.eqb_refl; cbn [negb];
  unfold bearer_token in Hb;
  destruct (Authorization _) as [authHeader|]; [|discriminate];
  rewrite ?empty_header_not_bearer;
  destruct (startsWith authHeader "Bearer "); [|discriminate];
  injection Hb as Hb; rewrite Hb; cbn [negb];
  unfold verify in Hv.

Lemma V1_fetch_authenticated (w : World E) request token uid :
  authenticated w request token uid ->
  exists o,
    V1.fetch E request (start w) =
    prepend [mkEvent (GetUser token) o]
      ((user_id <- request_json_user_id E request ;;
        if falsy user_id
        then ret (mkResponse 403 (Text "Unauthorized or invalid user_id"))
        else
          lowered <- value_toLowerCase E user_id ;;
          if negb (String.eqb lowered (toLowerCase E uid))
          then ret (mkResponse 403 (Text "Unauthorized or invalid user_id"))
          else
            try_catch
              (V1.deleteUserData E lowered ;;
               ret (mkResponse 200 (Text "User data deleted successfully")))
              (fun _ => ret (mkResponse 500 (Text "Error deleting user data"))))
         (start (verified w token))).
Proof.
  intros Hauth. authenticated_entry Hauth.
  unfold getUser. rewrite bind_await. unfold verified, start. cbn [world results].
  destruct (fst (auth_getUser E token w)) as [[[user|]|message]|reason];
    try discriminate.
  injection Hv as ->. eauto.
Qed.

Lemma V2_fetch_authenticated (w : World E) request token uid v :
  authenticated w request token uid ->
  body request = JsonValue v ->
  exists o,
    V2.fetch E request (start w) =
    prepend [mkEvent (GetUser token) o]
      (try_catch
         (lowered <- value_toLowerCase E v ;;
          if negb (String.eqb lowered (toLowerCase E uid))
          then ret (mkResponse 403 (JsonError "Unauthorized access"))
          else
            result <- V2.deleteUserData E lowered ;;
            ret (mkResponse 200 (JsonDetails "User data deleted successfully" result)))
         (fun _ => ret (mkResponse 500 (JsonError "Internal server error")))
         (start (verified w token))).
Proof.
  intros Hauth Hbody. authenticated_entry Hauth.
  unfold request_json_user_id. rewrite Hbody.
  unfold getUser, verified, start.
  set (handler := fun _ : string => ret _).
  eexists.
  apply try_catch_prepend. rewrite bind_ret, bind_await. cbn [world results].
  destruct (fst (auth_getUser E token w)) as [[[user|]|message]|reason];
    try discriminate.
  injection Hv as ->. reflexivity.
Qed.

Lemma V2_deleteUserData_normal (uid : string) (h : Heap E) :
  exists rep, outcome (V2.deleteUserData E uid h) = Normal rep.
Proof.
  destruct (V2_deleteUserData_shape uid h) as (rep & os & H & _). eauto.
Qed.
End Facts.

(** ** Traces of the second version's pipeline *)

Lemma snoc_split {A} (l pre post : list A) (a x : A) :
  (l ++ [a] = pre ++ x :: post)%list ->
  (post = [] /\ pre = l /\ x = a) \/ In x l.
Proof.
  intros H. destruct (exists_last (l := x :: post)) as (post' & z & Hz);
    [discriminate|].
  rewrite Hz, app_assoc in H. apply app_inj_tail in H. destruct H as [Hl Ha].
  destruct post' as [|y post'].
  - left. cbn in Hz. injection Hz as -> <-. rewrite app_nil_r in Hl. auto.
  - right. cbn in Hz. injection Hz as <- _. subst l. apply in_or_app. right. now left.
Qed.

Lemma relational_events_call uid os ev :
  In ev (relational_events uid os) ->
  exists table, call ev = Delete table "user_id" uid.
Proof.
  unfold relational_events. intros H. apply in_map_iff in H.
  destruct H as ([c o] & <- & H). apply in_combine_l in H.
  apply in_map_iff in H. destruct H as (table & <- & _). cbn. eauto.
Qed.

Lemma deletes_call (rest : list Event) keys ev :
  map call rest = map (fun key => DeleteObjects [key]) keys ->
  In ev rest -> exists key, call ev = DeleteObjects [key].
Proof.
  intros Hmap Hin. apply (in_map call) in Hin. rewrite Hmap in Hin.
  apply in_map_iff in Hin. destruct Hin as (key & <- & _). eauto.
Qed.

Lemma no_DeleteUser_spec (l : list Event) :
  no_DeleteUser l = true <-> forall ev, In ev l -> is_DeleteUser (call ev) = false.
Proof.
  unfold no_DeleteUser. rewrite forallb_forall. split; intros H ev Hin.
  - apply H in Hin. now apply negb_true_iff in Hin.
  - apply negb_true_iff. auto.
Qed.

Lemma no_DeleteUser_relational uid os : no_DeleteUser (relational_events uid os) = true.
Proof.
  apply no_DeleteUser_spec. intros ev Hin.
  destruct (relational_events_call _ _ _ Hin) as (table & ->). reflexivity.
Qed.

Lemma no_DeleteUser_deletes (rest : list Event) keys :
  map call rest = map (fun key => DeleteObjects [key]) keys ->
  no_DeleteUser rest = true.
Proof.
  intros Hmap. apply no_DeleteUser_spec. intros ev Hin.
  destruct (deletes_call _ _ _ Hmap Hin) as (key & ->). reflexivity.
Qed.

Lemma identity_last_quiet uid catalogue (t : list Event) :
  no_DeleteUser t = true -> identity_last uid catalogue t.
Proof.
  intros Hq pre ev post -> Hev.
  rewrite no_DeleteUser_spec in Hq.
  rewrite (Hq ev) in Hev; [discriminate|]. apply in_elt.
Qed.

Lemma identity_last_snoc uid catalogue (body : list Event) o :
  no_DeleteUser body = true ->
  all_attempted catalogue body ->
  identity_last uid catalogue (body ++ [mkEvent (DeleteUser uid) o]).
Proof.
  intros Hq Hall pre ev post Heq Hev.
  apply snoc_split in Heq. destruct Heq as [(-> & -> & ->)|Hin].
  - auto.
  - rewrite no_DeleteUser_spec in Hq. rewrite (Hq ev Hin) in Hev. discriminate.
Qed.

Lemma identity_last_V2 (E : Env) (uid : string) (h : Heap E) :
  identity_last uid (catalogue_V2 uid) (calls (V2.deleteUserData E uid h)).
Proof.
  destruct (V2_deleteUserData_shape E uid h)
    as (rep & os & Hrep & Hos & [(Hlen & reason & Hcalls & _)
                               |(Hlen & oL & rest & oA & Hcalls & Hrest & _)]);
    cbv zeta in *; rewrite Hcalls.
  - apply identity_last_quiet, no_DeleteUser_relational.
  - change (mkEvent (ListObjects (uid ++ "/")) oL :: rest ++ [mkEvent (DeleteUser uid) oA])%list
      with (([mkEvent (ListObjects (uid ++ "/")) oL] ++ rest) ++ [mkEvent (DeleteUser uid) oA])%list.
    rewrite app_assoc. apply identity_last_snoc.
    + rewrite !no_DeleteUser_app, no_DeleteUser_relational,
        (no_DeleteUser_deletes _ _ Hrest). reflexivity.
    + destruct os as [|o1 [|o2 [|o3 [|o4 [|o5 [|]]]]]]; try discriminate.
      unfold all_attempted, catalogue_V2. cbn.
      repeat constructor; eexists; cbn; eauto 10.
Qed.

Lemma identity_last_V1 (E : Env) (uid : string) (h : Heap E) :
  identity_last uid (catalogue_V1 uid) (calls (V1.deleteUserData E uid h)).
Proof.
  destruct (V1_deleteUserData_shape E uid h)
    as [(Hq & _)|(body & oA & Hcalls & Hq & Hall & _)]; cbv zeta in *.
  - now apply identity_last_quiet.
  - rewrite Hcalls. now apply identity_last_snoc.
Qed.

Lemma recorded_error (o : Outcome) :
  recorded o = "error" <-> exists message, o = Errored message.
Proof.
  destruct o; cbn; split; intros H; try discriminate; eauto;
    destruct H as [message H]; discriminate.
Qed.

Lemma recorded_words (o : Outcome) : recorded o = "error" \/ recorded o = "success".
Proof. destruct o; cbn; auto. Qed.

Lemma supabase_answered_spec (l : list Event) :
  supabase_answered l = true <->
  forall ev, In ev l -> threw (outcome_of ev) = true -> is_bucket (call ev) = true.
Proof.
  unfold supabase_answered. rewrite forallb_forall. split; intros H ev Hin.
  - specialize (H ev Hin). destruct (threw (outcome_of ev)); cbn in H; auto.
    discriminate.
  - destruct (threw (outcome_of ev)) eqn:Ht; cbn; auto.
Qed.

Lemma relational_events_snoc_threw uid os reason :
  length os < 5 ->
  exists table,
    In (mkEvent (Delete table "user_id" uid) (Threw reason))
       (relational_events uid (os ++ [Threw reason])).
Proof.
  intros Hlen.
  destruct os as [|o1 [|o2 [|o3 [|o4 [|o5 os]]]]]; cbn in *; try lia; eauto 10.
Qed.

Ltac same_event H :=
  repeat match type of H with
  | _ \/ _ => destruct H as [H|H]
  end;
  try contradiction;
  try (injection H as H; try discriminate; subst).

Lemma V2_isolation (E : Env) (uid : string) (h : Heap E) (rep : Results) :
  let r := V2.deleteUserData E uid h in
  outcome r = Normal rep ->
  supabase_answered (calls r) = true ->
  map fst rep = step_names /\
  Forall (isolated rep (calls r)) (supabase_steps uid) /\
  attempted (ListObjects (uid ++ "/")) (calls r) /\
  (get_property "r2Folder" rep = Some "error" <-> bucket_threw (calls r)).
Proof.
  cbv zeta. intros Hout Hans.
  destruct (V2_deleteUserData_shape E uid h)
    as (rep' & os & Hrep & Hos & [(Hlen & reason & Hcalls & _)
         |(Hlen & oL & rest & oA & Hcalls & Hrest & HoL & HoA & Hrep')]);
    cbv zeta in *; rewrite Hcalls in *.
  - exfalso. rewrite supabase_answered_spec in Hans.
    destruct (relational_events_snoc_threw uid os reason Hlen) as (table & Hin).
    specialize (Hans _ Hin eq_refl). discriminate.
  - rewrite Hrep in Hout. injection Hout as <-. subst rep'.
    destruct os as [|o1 [|o2 [|o3 [|o4 [|o5 [|]]]]]]; try discriminate.
    cbn [relational_events relational_report relational_tables step_names
      firstn combine map fst snd app] in *.
    assert (Hrel : forall c o,
      In (mkEvent c o)
         [mkEvent (Delete "replicate_predictions" "user_id" uid) o1;
          mkEvent (Delete "replicate_trainings" "user_id" uid) o2;
          mkEvent (Delete "push_tokens" "user_id" uid) o3;
          mkEvent (Delete "user_credits" "user_id" uid) o4;
          mkEvent (Delete "transactions" "user_id" uid) o5;
          mkEvent (ListObjects (uid ++ "/")) oL] \/
      In (mkEvent c o) rest \/ mkEvent (DeleteUser uid) oA = mkEvent c o <->
      In (mkEvent c o)
         (mkEvent (Delete "replicate_predictions" "user_id" uid) o1
          :: mkEvent (Delete "replicate_trainings" "user_id" uid) o2
          :: mkEvent (Delete "push_tokens" "user_id" uid) o3
          :: mkEvent (Delete "user_credits" "user_id" uid) o4
          :: mkEvent (Delete "transactions" "user_id" uid) o5
          :: mkEvent (ListObjects (uid ++ "/")) oL :: rest ++
             [mkEvent (DeleteUser uid) oA])%list).
    { intros c o. cbn [In]. rewrite in_app_iff. cbn [In]. tauto. }
    assert (Hdel : forall c o, In (mkEvent c o) rest -> is_bucket c = true).
    { intros c o Hin. destruct (deletes_call _ _ _ Hrest Hin) as (key & Hk).
      cbn in Hk. now subst c. }
    assert (HtA : threw oA = false).
    { rewrite supabase_answered_spec in Hans.
      destruct (threw oA) eqn:Ht; [|reflexivity]. exfalso.
      assert (Hb : is_bucket (DeleteUser uid) = true).
      { apply (Hans (mkEvent (DeleteUser uid) oA)); [|exact Ht].
        apply Hrel. right. right. reflexivity. }
      discriminate. }
    rewrite HtA. split; [reflexivity|].
    split; [|split].
    + unfold supabase_steps.
      repeat apply Forall_cons; try apply Forall_nil;
        unfold isolated, attempted, reported_error; cbn [fst snd];
        cbn [get_property String.eqb Ascii.eqb Bool.eqb];
        (split; [eexists; apply Hrel;
                 first [left; cbn; eauto 10; fail | right; right; reflexivity]|]);
        (split; [match goal with
                 | |- Some (recorded ?o) = _ \/ _ =>
                     destruct (recorded_words o) as [Hw|Hw]; rewrite Hw; auto
                 end|]);
        (split; [intros H; injection H as H; apply recorded_error in H;
                 destruct H as [message ->]; exists message; apply Hrel;
                 first [left; cbn; tauto | right; right; reflexivity]
                |intros [message H]; apply Hrel in H;
                 destruct H as [H|[H|H]];
                 [cbn [In] in H; same_event H; reflexivity
                 |apply Hdel in H; discriminate
                 |same_event H; try reflexivity]]).
    + eexists. apply Hrel. left. cbn. eauto 10.
    + cbn [get_property String.eqb Ascii.eqb Bool.eqb]. unfold bucket_threw.
      split.
      * intros H. injection H as H.
        destruct HoL as [Ht|[keys ->]].
        -- exists (mkEvent (ListObjects (uid ++ "/")) oL). cbn. auto 10.
        -- destruct keys as [|k keys]; [discriminate|]. cbn in H.
           destruct (existsb _ rest) eqn:Hex; [|discriminate].
           apply existsb_exists in Hex. destruct Hex as ([c o] & Hin & Ht).
           exists (mkEvent c o). split; [apply Hrel; auto|].
           split; [eapply Hdel; eauto|exact Ht].
      * intros ([c o] & Hin & Hb & Ht). apply Hrel in Hin. cbn in Hb, Ht.
        destruct Hin as [Hin|[Hin|Hin]].
        -- cbn [In] in Hin. same_event Hin; try discriminate.
           match goal with
           | Hthrew : threw ?x = true |- _ => destruct x; try discriminate
           end.
           reflexivity.
        -- destruct HoL as [HtL|[keys ->]]; [destruct oL; try discriminate; reflexivity|].
           destruct keys as [|k keys]; [destruct rest; [destruct Hin|discriminate]|].
           cbn. replace (existsb _ rest) with true; [reflexivity|].
           symmetry. apply existsb_exists. exists (mkEvent c o). auto.
        -- same_event Hin. discriminate.
Qed.

Lemma answered_not_threw (os : list Outcome) uid :
  forallb answered os = true ->
  supabase_answered (relational_events uid os) = true.
Proof.
  intros Hos. apply supabase_answered_spec. intros ev Hin Ht. exfalso.
  unfold relational_events in Hin. apply in_map_iff in Hin.
  destruct Hin as ([c o] & <- & Hin). apply in_combine_r in Hin.
  rewrite forallb_forall in Hos. specialize (Hos _ Hin). cbn in Ht.
  destruct o; discriminate.
Qed.

Lemma bucket_events_answered (rest : list Event) keys :
  map call rest = map (fun key => DeleteObjects [key]) keys ->
  supabase_answered rest = true.
Proof.
  intros Hmap. apply supabase_answered_spec. intros ev Hin _.
  destruct (deletes_call _ _ _ Hmap Hin) as (key & ->). reflexivity.
Qed.

(** When a Supabase call of the second version's pipeline rejects, that
    call is the last of the trace and the report carries the entry
    [error: 'Process failed']. *)
Lemma V2_abort (E : Env) (uid : string) (h : Heap E) (rep : Results) :
  let r := V2.deleteUserData E uid h in
  outcome r = Normal rep ->
  supabase_answered (calls r) = false ->
  get_property "error" rep = Some "Process failed" /\
  exists pre ev,
    calls r = (pre ++ [ev])%list /\
    threw (outcome_of ev) = true /\ is_bucket (call ev) = false.
Proof.
  cbv zeta. intros Hout Hans.
  destruct (V2_deleteUserData_shape E uid h)
    as (rep' & os & Hrep & Hos & [(Hlen & reason & Hcalls & Hrep')
         |(Hlen & oL & rest & oA & Hcalls & Hrest & HoL & HoA & Hrep')]);
    cbv zeta in *; rewrite Hcalls in *; rewrite Hrep in Hout;
    injection Hout as <-; subst rep'.
  - destruct os as [|o1 [|o2 [|o3 [|o4 [|o5 os]]]]]; cbn in Hlen; try lia;
      (split; [reflexivity|]); cbn.
    + exists [], (mkEvent (Delete "replicate_predictions" "user_id" uid) (Threw reason)).
      auto.
    + exists [mkEvent (Delete "replicate_predictions" "user_id" uid) o1],
             (mkEvent (Delete "replicate_trainings" "user_id" uid) (Threw reason)).
      auto.
    + exists [mkEvent (Delete "replicate_predictions" "user_id" uid) o1;
              mkEvent (Delete "replicate_trainings" "user_id" uid) o2],
             (mkEvent (Delete "push_tokens" "user_id" uid) (Threw reason)).
      auto.
    + exists [mkEvent (Delete "replicate_predictions" "user_id" uid) o1;
              mkEvent (Delete "replicate_trainings" "user_id" uid) o2;
              mkEvent (Delete "push_tokens" "user_id" uid) o3],
             (mkEvent (Delete "user_credits" "user_id" uid) (Threw reason)).
      auto.
    + exists [mkEvent (Delete "replicate_predictions" "user_id" uid) o1;
              mkEvent (Delete "replicate_trainings" "user_id" uid) o2;
              mkEvent (Delete "push_tokens" "user_id" uid) o3;
              mkEvent (Delete "user_credits" "user_id" uid) o4],
             (mkEvent (Delete "transactions" "user_id" uid) (Threw reason)).
      auto.
  - assert (HtA : threw oA = true).
    { destruct (threw oA) eqn:Ht; [reflexivity|]. exfalso.
      unfold supabase_answered in Hans.
      change (mkEvent (ListObjects (uid ++ "/")) oL :: rest ++ [mkEvent (DeleteUser uid) oA])%list
        with ([mkEvent (ListObjects (uid ++ "/")) oL] ++ rest ++ [mkEvent (DeleteUser uid) oA])%list
        in Hans.
      rewrite !forallb_app in Hans.
      fold (supabase_answered (relational_events uid os)) in Hans.
      fold (supabase_answered rest) in Hans.
      rewrite (answered_not_threw os uid Hos), (bucket_events_answered _ _ Hrest) in Hans.
      cbn in Hans. rewrite Ht in Hans. cbn in Hans.
      rewrite orb_true_r in Hans. discriminate. }
    rewrite HtA.
    destruct os as [|o1 [|o2 [|o3 [|o4 [|o5 [|]]]]]]; try discriminate.
    split; [reflexivity|].
    exists (relational_events uid [o1; o2; o3; o4; o5] ++
            mkEvent (ListObjects (uid ++ "/")) oL :: rest)%list,
           (mkEvent (DeleteUser uid) oA).
    split; [|auto]. rewrite <- app_assoc. reflexivity.
Qed.

(** ** An accepted request runs the pipeline *)

Lemma V1_fetch_accepted (E : Env) (w : World E) request token uid s :
  authenticated w request token uid ->
  body request = JsonValue (JsString s) ->
  s <> "" ->
  toLowerCase E s = toLowerCase E uid ->
  let p := V1.deleteUserData E (toLowerCase E s) (start (verified w token)) in
  exists o,
    V1.fetch E request (start w) =
    mkRun (Normal (match outcome p with
                   | Normal _ => mkResponse 200 (Text "User data deleted successfully")
                   | Thrown _ => mkResponse 500 (Text "Error deleting user data")
                   end))
          (final p) (mkEvent (GetUser token) o :: calls p).
Proof.
  intros Hauth Hbody Hs Heq p.
  destruct (V1_fetch_authenticated E w request token uid Hauth) as (o & ->).
  exists o. unfold request_json_user_id, value_toLowerCase.
  rewrite Hbody, bind_ret. cbn [falsy].
  apply String.eqb_neq in Hs. rewrite Hs, bind_ret, Heq, String.eqb_refl.
  cbn [negb]. rewrite <- Heq. fold p.
  destruct (outcome p) as [[]|reason] eqn:Hp.
  - rewrite (try_catch_normal E _ _ _ (mkResponse 200 (Text "User data deleted successfully")))
      by (unfold p in *; rewrite (bind_normal E _ _ _ tt Hp); reflexivity).
    unfold p in *. rewrite (bind_normal E _ _ _ tt Hp).
    unfold prepend, ret. cbn. now rewrite app_nil_r.
  - rewrite (try_catch_thrown E _ _ _ reason)
      by (unfold p in *; rewrite (bind_thrown E _ _ _ reason Hp); reflexivity).
    unfold p in *. rewrite (bind_thrown E _ _ _ reason Hp).
    unfold prepend, ret. cbn. now rewrite app_nil_r.
Qed.

Lemma V2_fetch_accepted (E : Env) (w : World E) request token uid s :
  authenticated w request token uid ->
  body request = JsonValue (JsString s) ->
  toLowerCase E s = toLowerCase E uid ->
  let p := V2.deleteUserData E (toLowerCase E s) (start (verified w token)) in
  exists o rep,
    outcome p = Normal rep /\
    V2.fetch E request (start w) =
    mkRun (Normal (mkResponse 200 (JsonDetails "User data deleted successfully" rep)))
          (final p) (mkEvent (GetUser token) o :: calls p).
Proof.
  intros Hauth Hbody Heq p.
  destruct (V2_fetch_authenticated E w request token uid _ Hauth Hbody) as (o & ->).
  destruct (V2_deleteUserData_normal E (toLowerCase E s) (start (verified w token)))
    as (rep & Hp).
  exists o, rep. split; [exact Hp|].
  unfold value_toLowerCase.
  rewrite (try_catch_normal E _ _ _
             (mkResponse 200 (JsonDetails "User data deleted successfully" rep))).
  - rewrite bind_ret, Heq, String.eqb_refl. cbn [negb]. rewrite <- Heq.
    rewrite (bind_normal E _ _ _ rep Hp).
    unfold prepend, ret. cbn. now rewrite app_nil_r.
  - rewrite bind_ret, Heq, String.eqb_refl. cbn [negb]. rewrite <- Heq.
    rewrite (bind_normal E _ _ _ rep Hp). reflexivity.
Qed.

(** ** Runs on the reference backends *)

Section HealthyReference.
Variable limit : nat.

Local Abbreviation E := (reference limit healthy).

Lemma healthy_delete_eq table column value (s : Store) :
  delete_eq E table column value s =
  (Resolved (Data tt), without_rows table column value s).
Proof. reflexivity. Qed.

Lemma healthy_list prefix (s : Store) :
  BUCKET_list E prefix s = (Resolved (page limit prefix s), s).
Proof. reflexivity. Qed.

Lemma healthy_delete keys (s : Store) :
  BUCKET_delete E keys s = (Resolved tt, without_objects keys s).
Proof. reflexivity. Qed.

Lemma healthy_deleteUser uid (s : Store) :
  auth_admin_deleteUser E uid s =
  if mem_string uid (users s)
  then (Resolved (Data tt), without_user uid s)
  else (Resolved (Error "User not found"), s).
Proof.
  cbn. unfold store_deleteUser, supabase_call. cbn.
  destruct (mem_string uid (users s)); reflexivity.
Qed.

Lemma healthy_delete_each (keys : list string) (s : Store) (res : Results) :
  Promise_all (map (fun key => bucket_delete E [key]) keys) (mkHeap E s res) =
  mkRun (Normal (map (fun _ => tt) keys))
        (mkHeap E (without_each keys s) res)
        (map (fun key => mkEvent (DeleteObjects [key]) Done) keys).
Proof.
  revert s. induction keys as [|key keys IH]; intros s; [reflexivity|].
  cbn [map Promise_all]. cbv zeta.
  rewrite bucket_delete_run. cbv zeta. cbn [world results].
  rewrite healthy_delete. cbn [fst snd outcome final calls].
  rewrite IH. reflexivity.
Qed.

Lemma healthy_V2_deleteUserFolder (uid : string) (s : Store) (res : Results) :
  let listed := page limit (uid ++ "/") s in
  V2.deleteUserFolder E uid (mkHeap E s res) =
  mkRun (Normal tt)
        (mkHeap E (without_each listed s)
                (set_property "r2Folder" (healthy_folder_word listed) res))
        (mkEvent (ListObjects (uid ++ "/")) (Listed listed) ::
         map (fun key => mkEvent (DeleteObjects [key]) Done) listed).
Proof.
  cbv zeta. unfold V2.deleteUserFolder, bucket_list.
  rewrite try_catch_bind_await. cbn [world results].
  rewrite healthy_list. cbn [fst snd].
  destruct (page limit (uid ++ "/") s) as [|key keys] eqn:Hpage; [reflexivity|].
  cbn [length Nat.ltb Nat.leb].
  rewrite (try_catch_bind_normal E _ _ _ _ (map (fun _ => tt) (key :: keys)))
    by (rewrite healthy_delete_each; reflexivity).
  rewrite healthy_delete_each. unfold prepend, try_catch, set_result.
  cbn [outcome final calls world results app healthy_folder_word].
  rewrite app_nil_r. reflexivity.
Qed.

Lemma healthy_V1_deleteUserFolder (uid : string) (s : Store) (res : Results) :
  let listed := page limit (uid ++ "/") s in
  V1.deleteUserFolder E uid (mkHeap E s res) =
  mkRun (Normal tt)
        (mkHeap E (match listed with [] => s | _ :: _ => without_objects listed s end) res)
        (mkEvent (ListObjects (uid ++ "/")) (Listed listed) ::
         match listed with
         | [] => []
         | _ :: _ => [mkEvent (DeleteObjects listed) Done]
         end).
Proof.
  cbv zeta. unfold V1.deleteUserFolder, bucket_list.
  rewrite try_catch_bind_await. cbn [world results].
  rewrite healthy_list. cbn [fst snd].
  destruct (page limit (uid ++ "/") s) as [|key keys] eqn:Hpage; [reflexivity|].
  cbn [length Nat.ltb Nat.leb]. unfold try_catch.
  rewrite bucket_delete_run. cbv zeta. cbn [world results].
  rewrite healthy_delete. reflexivity.
Qed.
End HealthyReference.

(** ** What the reference stores hold after a run *)

Lemma mem_string_In (k : string) (l : list string) :
  mem_string k l = true <-> In k l.
Proof.
  unfold mem_string. rewrite existsb_exists. split.
  - intros (x & Hin & Hx). apply String.eqb_eq in Hx. now subst.
  - intros Hin. exists k. split; [assumption|apply String.eqb_refl].
Qed.

Lemma objects_without_objects keys (s : Store) k :
  In k (objects (without_objects keys s)) <-> In k (objects s) /\ ~ In k keys.
Proof.
  unfold without_objects. cbn [objects]. rewrite filter_In, negb_true_iff.
  rewrite <- (mem_string_In k keys).
  destruct (mem_string k keys); intuition congruence.
Qed.

Lemma objects_without_each keys (s : Store) k :
  In k (objects (without_each keys s)) <-> In k (objects s) /\ ~ In k keys.
Proof.
  unfold without_each. revert s. induction keys as [|key keys IH]; intros s.
  - cbn. tauto.
  - cbn [fold_left]. rewrite IH, objects_without_objects. cbn [In]. intuition.
Qed.

Lemma users_without_each keys (s : Store) : users (without_each keys s) = users s.
Proof.
  unfold without_each. revert s. induction keys as [|key keys IH]; intros s;
    [reflexivity|]. cbn [fold_left]. now rewrite IH.
Qed.

Lemma users_without_subject_rows uid (s : Store) :
  users (without_subject_rows uid s) = users s.
Proof. reflexivity. Qed.

Lemma mem_without_user uid (s : Store) :
  mem_string uid (users (without_user uid s)) = false.
Proof.
  destruct (mem_string uid (users (without_user uid s))) eqn:H; [|reflexivity].
  apply mem_string_In in H. unfold without_user in H. cbn [users] in H.
  apply filter_In in H. destruct H as [_ H]. rewrite String.eqb_refl in H. discriminate.
Qed.

Lemma erased_store_no_user limit uid (s : Store) :
  mem_string uid (users (erased_store limit uid s)) = false.
Proof.
  unfold erased_store. cbv zeta.
  set (s2 := without_each _ _).
  destruct (mem_string uid (users s2)) eqn:H; [apply mem_without_user|exact H].
Qed.

Lemma firstn_whole {A} (n : nat) (l : list A) : length l <= n -> firstn n l = l.
Proof. apply firstn_all2. Qed.

Lemma filter_nil_iff {A} (f : A -> bool) (l : list A) :
  filter f l = [] <-> forall x, In x l -> f x = false.
Proof.
  induction l as [|a l IH]; cbn.
  - tauto.
  - destruct (f a) eqn:Ha; split.
    + discriminate.
    + intros H. rewrite (H a) in Ha; [discriminate|now left].
    + intros H x [<-|Hin]; [assumption|]. now apply IH.
    + intros H. apply IH. intros x Hin. apply H. now right.
Qed.

Lemma nothing_left_under (prefix : string) (s s' : Store) (listed : list string) :
  (forall k, In k (objects s') <-> In k (objects s) /\ ~ In k listed) ->
  listed = keys_under prefix s ->
  keys_under prefix s' = [].
Proof.
  intros Hobj ->. unfold keys_under. apply filter_nil_iff. intros k Hin.
  apply Hobj in Hin. destruct Hin as [Hin Hnot].
  destruct (String.prefix prefix k) eqn:Hp; [|reflexivity].
  exfalso. apply Hnot. unfold keys_under. apply filter_In. auto.
Qed.

Lemma no_token_resolves (limit : nat) (uid : string) (s : Store) token :
  mem_string uid (users s) = false ->
  verify (E:=healthy_env limit) s token <> Live uid.
Proof.
  intros Hgone. unfold verify, healthy_env. cbn.
  unfold store_getUser, supabase_call. cbn.
  destruct (lookup_session token (sessions s)) as [u|]; [|discriminate].
  destruct (mem_string u (users s)) eqn:Hu; cbn; [|discriminate].
  intros H. injection H as ->. congruence.
Qed.

Lemma healthy_V2_deleteUserData (limit : nat) (uid : string) (s : Store) (res : Results) :
  let s1 := without_subject_rows uid s in
  let listed := page limit (uid ++ "/") s1 in
  let r := V2.deleteUserData (healthy_env limit) uid (mkHeap (healthy_env limit) s res) in
  outcome r = Normal (healthy_report listed (mem_string uid (users s))) /\
  world (final r) = erased_store limit uid s.
Proof.
  cbv zeta. unfold V2.deleteUserData, healthy_env. rewrite bind_new_results.
  unfold from_delete_eq, admin_deleteUser.
  do 5 (rewrite try_catch_bind_await; cbn [world results];
        rewrite healthy_delete_eq; cbn [fst snd];
        rewrite try_catch_bind_set_result; cbn [world results]).
  rewrite (try_catch_bind_normal _ _ _ _ _ tt)
    by (rewrite healthy_V2_deleteUserFolder; reflexivity).
  rewrite healthy_V2_deleteUserFolder. cbv zeta. cbn [final calls].
  rewrite try_catch_bind_await. cbn [world results].
  rewrite healthy_deleteUser, users_without_each.
  unfold erased_store. cbv zeta. rewrite users_without_each.
  change (without_rows "transactions" "user_id" uid
            (without_rows "user_credits" "user_id" uid
               (without_rows "push_tokens" "user_id" uid
                  (without_rows "replicate_trainings" "user_id" uid
                     (without_rows "replicate_predictions" "user_id" uid s)))))
    with (without_subject_rows uid s).
  change (users (without_subject_rows uid s)) with (users s).
  destruct (mem_string uid (users s)); cbn [fst snd];
    rewrite try_catch_bind_set_result; split; reflexivity.
Qed.

(** ** Facts about the sample backends *)

Lemma sample_authenticated :
  authenticated sample_world sample_request "tok" "abc-123".
Proof. repeat split. Qed.

Lemma other_subject_authenticated :
  authenticated sample_world other_subject_request "tok" "abc-123".
Proof. repeat split. Qed.

Lemma sample_nobody_listing :
  fst (BUCKET_list sample_env ("nobody" ++ "/") (world sample_heap)) = Resolved [].
Proof. reflexivity. Qed.

Lemma sample_pipeline_calls :
  calls (V2.deleteUserData sample_env "abc-123" sample_heap) =
  ([mkEvent (Delete "replicate_predictions" "user_id" "abc-123") Done;
    mkEvent (Delete "replicate_trainings" "user_id" "abc-123") Done;
    mkEvent (Delete "push_tokens" "user_id" "abc-123") Done;
    mkEvent (Delete "user_credits" "user_id" "abc-123") Done;
    mkEvent (Delete "transactions" "user_id" "abc-123") Done;
    mkEvent (ListObjects "abc-123/") (Listed ["abc-123/a"; "abc-123/b"]);
    mkEvent (DeleteObjects ["abc-123/a"]) Done;
    mkEvent (DeleteObjects ["abc-123/b"]) Done] ++
   mkEvent (DeleteUser "abc-123") Done :: [])%list.
Proof. vm_compute. reflexivity. Qed.

Lemma trainings_error_outcome :
  outcome (V2.deleteUserData trainings_error_env "abc-123" trainings_error_heap) =
  Normal [("predictions", "success"); ("trainings", "error"); ("pushToken", "success");
          ("credits", "success"); ("transactions", "success"); ("r2Folder", "success");
          ("auth", "success")].
Proof. vm_compute. reflexivity. Qed.

Lemma trainings_error_answered :
  supabase_answered
    (calls (V2.deleteUserData trainings_error_env "abc-123" trainings_error_heap)) = true.
Proof. vm_compute. reflexivity. Qed.

Lemma sample_fits_roomy_page : length (keys_under ("abc-123" ++ "/") sample_store) <= 3.
Proof. apply le_n. Qed.

(** * The claims *)

(** C2, as the worker implements it.  A request without a valid bearer
    token (no Authorization header, no Bearer scheme, or a token that the
    identity provider does not resolve to a live identity) never leads to a
    delete call on any backend, in either version.  It is answered 401 when
    it is a POST request and, in the second version, when moreover either
    the header already fails the Bearer test or the body parses to a
    non-null JSON value (the second version parses the body first).  When
    it is not a POST request the method guard answers 405. *)
Theorem unauthenticated_request_deletes_nothing
    (E : Env) (w : World E) (request : Request) :
  unauthenticated w request ->
  no_delete (issued (V1.fetch E request (start w))) /\
  no_delete (issued (V2.fetch E request (start w))) /\
  (method request = "POST" ->
   response_status (V1.fetch E request (start w)) = Some 401) /\
  (method request = "POST" ->
   bearer_token request = None \/ (exists v, body request = JsonValue v) ->
   response_status (V2.fetch E request (start w)) = Some 401) /\
  (method request <> "POST" ->
   response_status (V1.fetch E request (start w)) = Some 405 /\
   response_status (V2.fetch E request (start w)) = Some 405).
Proof.
  intros H.
  destruct (unauthenticated_V1 E w request H) as [A1 B1].
  destruct (unauthenticated_V2 E w request H) as [A2 B2].
  repeat (split; [assumption|]).
  intros Hm. unfold response_status.
  destruct (fetch_other_method E request (start w) Hm) as [-> ->]. auto.
Qed.

Lemma unauthenticated_request_deletes_nothing_witness :
  unauthenticated sample_world stale_request /\
  response_status (V1.fetch sample_env stale_request sample_heap) = Some 401 /\
  response_status (V2.fetch sample_env stale_request sample_heap) = Some 401 /\
  no_delete (issued (V2.fetch sample_env stale_request sample_heap)).
Proof.
  assert (H : unauthenticated sample_world stale_request) by reflexivity.
  destruct (unauthenticated_request_deletes_nothing
              sample_env sample_world stale_request H)
    as (_ & A2 & B1 & B2 & _).
  split; [exact H|]. split; [apply B1; reflexivity|].
  split; [apply B2; [reflexivity|right; eexists; reflexivity]|exact A2].
Defined.

(** C2 as stated fails: a GET request without Authorization header is
    answered 405 by both versions, and the second version answers 500 to a
    POST request with an unresolvable Bearer token and a malformed body. *)
Lemma unauthenticated_not_always_401 :
  unauthenticated sample_world get_request /\
  response_status (V1.fetch sample_env get_request sample_heap) = Some 405 /\
  response_status (V2.fetch sample_env get_request sample_heap) = Some 405 /\
  unauthenticated sample_world stale_malformed_request /\
  response_status (V2.fetch sample_env stale_malformed_request sample_heap) = Some 500.
Proof. repeat split. Qed.

(** C3.  On an authenticated request whose body names a subject that
    differs, after the platform's [toLowerCase] on both sides, from the
    verified identity's id, both versions answer 403 and the only backend
    call is the verification of the token: no delete call is issued.  The
    case folding is the environment's, so nothing is assumed about the
    characters of the two ids. *)
Theorem mismatched_subject_is_forbidden
    (E : Env) (w : World E) (request : Request) (token uid s : string) :
  authenticated w request token uid ->
  body request = JsonValue (JsString s) ->
  toLowerCase E s <> toLowerCase E uid ->
  response_status (V1.fetch E request (start w)) = Some 403 /\
  issued (V1.fetch E request (start w)) = [GetUser token] /\
  no_delete (issued (V1.fetch E request (start w))) /\
  response_status (V2.fetch E request (start w)) = Some 403 /\
  issued (V2.fetch E request (start w)) = [GetUser token] /\
  no_delete (issued (V2.fetch E request (start w))).
Proof.
  intros Hauth Hbody Hneq.
  apply String.eqb_neq in Hneq.
  destruct (V1_fetch_authenticated E w request token uid Hauth) as (o1 & ->).
  destruct (V2_fetch_authenticated E w request token uid _ Hauth Hbody) as (o2 & ->).
  unfold request_json_user_id, value_toLowerCase, response_status, issued, no_delete.
  rewrite Hbody, bind_ret. cbn [falsy].
  rewrite (try_catch_normal E _ _ _ (mkResponse 403 (JsonError "Unauthorized access")))
    by (rewrite bind_ret, Hneq; reflexivity).
  rewrite !bind_ret, Hneq.
  destruct (String.eqb s ""); rewrite ?bind_ret, ?Hneq; cbn;
    repeat split; repeat constructor.
Qed.

Lemma mismatched_subject_is_forbidden_witness :
  authenticated sample_world other_subject_request "tok" "abc-123" /\
  toLowerCase sample_env "other" <> toLowerCase sample_env "abc-123" /\
  response_status (V1.fetch sample_env other_subject_request sample_heap) = Some 403 /\
  response_status (V2.fetch sample_env other_subject_request sample_heap) = Some 403 /\
  no_delete (issued (V2.fetch sample_env other_subject_request sample_heap)).
Proof.
  assert (Hneq : toLowerCase sample_env "other" <> toLowerCase sample_env "abc-123") by discriminate.
  pose proof (mismatched_subject_is_forbidden
                sample_env sample_world other_subject_request "tok" "abc-123" "other"
                other_subject_authenticated eq_refl Hneq)
    as (A & _ & _ & B & _ & C).
  split; [exact other_subject_authenticated|]. split; [exact Hneq|].
  split; [exact A|]. split; [exact B|exact C].
Defined.

(** C5, as the worker implements it.  On a request that passed
    authentication and authorization, the second version answers 200
    whatever the deletion steps did.  The first version answers 200 when no
    exception escapes its pipeline and 500 when one does. *)
Theorem authorized_request_status
    (E : Env) (w : World E) (request : Request) (token uid s : string) :
  authenticated w request token uid ->
  body request = JsonValue (JsString s) ->
  toLowerCase E s = toLowerCase E uid ->
  response_status (V2.fetch E request (start w)) = Some 200 /\
  (s <> "" ->
   response_status (V1.fetch E request (start w)) =
   Some (match outcome (V1.deleteUserData E (toLowerCase E s) (start (verified w token))) with
         | Normal _ => 200
         | Thrown _ => 500
         end)).
Proof.
  intros Hauth Hbody Heq. split.
  - destruct (V2_fetch_accepted E w request token uid s Hauth Hbody Heq)
      as (o & rep & _ & ->). reflexivity.
  - intros Hs.
    destruct (V1_fetch_accepted E w request token uid s Hauth Hbody Hs Heq)
      as (o & ->). unfold response_status. cbn [outcome].
    destruct (outcome (V1.deleteUserData E _ _)); reflexivity.
Qed.

Lemma authorized_request_status_witness :
  authenticated sample_world sample_request "tok" "abc-123" /\
  toLowerCase sample_env "ABC-123" = toLowerCase sample_env "abc-123" /\
  response_status (V2.fetch sample_env sample_request sample_heap) = Some 200 /\
  response_status (V1.fetch sample_env sample_request sample_heap) = Some 200.
Proof.
  pose proof (authorized_request_status
                sample_env sample_world sample_request "tok" "abc-123" "ABC-123"
                sample_authenticated eq_refl eq_refl) as (A & B).
  split; [exact sample_authenticated|]. split; [reflexivity|].
  split; [exact A|]. apply B. discriminate.
Defined.

(** C5 as stated fails on the first version: a training row without input
    images makes [new URL] throw outside any step-level handler, and the
    authenticated, authorized request is answered 500. *)
Lemma authorized_request_answered_500 :
  authenticated (E:=null_images_env) sample_store_null_images sample_request
    "tok" "abc-123" /\
  toLowerCase null_images_env "ABC-123" = toLowerCase null_images_env "abc-123" /\
  response_status (V1.fetch null_images_env sample_request null_images_heap) = Some 500.
Proof. repeat split. Qed.




(** C10.  In the second version the body is parsed before the token is
    verified: a POST request with a Bearer-prefixed Authorization header and
    a malformed JSON body is answered 500 without any backend call, so
    whatever the token is. *)
Theorem malformed_body_precedes_verification
    (E : Env) (h : Heap E) (request : Request) (authHeader : string) :
  method request = "POST" ->
  Authorization request = Some authHeader ->
  startsWith authHeader "Bearer " = true ->
  body request = Malformed ->
  V2.fetch E request h =
  mkRun (Normal (mkResponse 500 (JsonError "Internal server error"))) h [].
Proof.
  intros Hm Ha Hb Hbody. unfold V2.fetch, request_json_user_id.
  rewrite Hm, Ha, Hb, Hbody. reflexivity.
Qed.

Lemma malformed_body_precedes_verification_witness :
  response_status (V2.fetch sample_env stale_malformed_request sample_heap) = Some 500 /\
  response_status (V2.fetch sample_env malformed_request sample_heap) = Some 500 /\
  calls (V2.fetch sample_env stale_malformed_request sample_heap) = [].
Proof.
  rewrite (malformed_body_precedes_verification
             sample_env sample_heap stale_malformed_request "Bearer stale"
             eq_refl eq_refl eq_refl eq_refl).
  rewrite (malformed_body_precedes_verification
             sample_env sample_heap malformed_request "Bearer tok"
             eq_refl eq_refl eq_refl eq_refl).
  repeat split.
Defined.

(** C8.  When the listing of the subject's prefix returns no key, the
    object-store step of the second version records the word
    "no files found" under [r2Folder], a word of its own that is neither
    "error" nor "success"; it completes normally and issues no delete.  The
    report of the whole pipeline carries that word whenever its trace shows
    an empty listing.  The step of the first version, which keeps no
    record, completes normally without issuing a delete. *)
Theorem empty_listing_is_nothing_to_delete (E : Env) (uid : string) (h : Heap E) :
  (fst (BUCKET_list E (uid ++ "/") (world h)) = Resolved [] ->
   outcome (V2.deleteUserFolder E uid h) = Normal tt /\
   results (final (V2.deleteUserFolder E uid h)) =
     set_property "r2Folder" "no files found" (results h) /\
   issued (V2.deleteUserFolder E uid h) = [ListObjects (uid ++ "/")] /\
   outcome (V1.deleteUserFolder E uid h) = Normal tt /\
   issued (V1.deleteUserFolder E uid h) = [ListObjects (uid ++ "/")]) /\
  (forall rep,
     outcome (V2.deleteUserData E uid h) = Normal rep ->
     In (mkEvent (ListObjects (uid ++ "/")) (Listed []))
        (calls (V2.deleteUserData E uid h)) ->
     get_property "r2Folder" rep = Some "no files found" /\
     get_property "r2Folder" rep <> Some "error" /\
     get_property "r2Folder" rep <> Some "success").
Proof.
  split.
  - intros Hlist.
    unfold V2.deleteUserFolder, V1.deleteUserFolder, bucket_list, issued.
    rewrite !try_catch_bind_await, Hlist. cbn. auto.
  - intros rep Hout Hin.
    destruct (V2_deleteUserData_shape E uid h)
      as (rep' & os & Hrep & Hos & [(Hlen & reason & Hcalls & _)
           |(Hlen & oL & rest & oA & Hcalls & Hrest & HoL & HoA & Hrep')]);
      cbv zeta in *; rewrite Hcalls in Hin.
    + apply relational_events_call in Hin. destruct Hin as (table & Hin). discriminate.
    + rewrite Hrep in Hout. injection Hout as <-. subst rep'.
      assert (HL : oL = Listed []).
      { apply in_app_or in Hin. destruct Hin as [Hin|[Hin|Hin]].
        - apply relational_events_call in Hin. destruct Hin as (table & Hin). discriminate.
        - now injection Hin.
        - apply in_app_or in Hin. destruct Hin as [Hin|[Hin|[]]].
          + destruct (deletes_call _ _ _ Hrest Hin) as (key & Hk). discriminate.
          + discriminate. }
      subst oL.
      destruct os as [|o1 [|o2 [|o3 [|o4 [|o5 [|]]]]]]; try discriminate.
      cbn. repeat split; discriminate.
Qed.

Lemma empty_listing_is_nothing_to_delete_witness :
  fst (BUCKET_list sample_env ("nobody" ++ "/") (world sample_heap)) = Resolved [] /\
  results (final (V2.deleteUserFolder sample_env "nobody" sample_heap)) =
    [("r2Folder", "no files found")].
Proof.
  pose proof (proj1 (empty_listing_is_nothing_to_delete sample_env "nobody" sample_heap)
                sample_nobody_listing) as (_ & W & _).
  split; [exact sample_nobody_listing|exact W].
Defined.

(** C9.  In every execution of the pipeline, of either version, a call to
    the identity provider's delete is the last call of the trace, it is for
    the subject, and it comes after the opening call of every other step of
    the catalogue: the five tables and the listing of the subject's prefix.
    The call is issued whenever the first version's pipeline completes and
    whenever the second version's report has no [error] entry. *)
Theorem identity_deletion_is_last (E : Env) (uid : string) (h : Heap E) :
  identity_last uid (catalogue_V1 uid) (calls (V1.deleteUserData E uid h)) /\
  identity_last uid (catalogue_V2 uid) (calls (V2.deleteUserData E uid h)) /\
  (outcome (V1.deleteUserData E uid h) = Normal tt ->
   attempted (DeleteUser uid) (calls (V1.deleteUserData E uid h))) /\
  (forall rep,
     outcome (V2.deleteUserData E uid h) = Normal rep ->
     get_property "error" rep = None ->
     attempted (DeleteUser uid) (calls (V2.deleteUserData E uid h))).
Proof.
  split; [apply identity_last_V1|]. split; [apply identity_last_V2|]. split.
  - intros Hout.
    destruct (V1_deleteUserData_shape E uid h)
      as [(_ & reason & Hthrown)|(body & oA & Hcalls & _)]; cbv zeta in *.
    + rewrite Hthrown in Hout. discriminate.
    + rewrite Hcalls. apply attempted_app_r, attempted_head.
  - intros rep Hout Herr.
    destruct (V2_deleteUserData_shape E uid h)
      as (rep' & os & Hrep & Hos & [(Hlen & reason & Hcalls & Hrep')
           |(Hlen & oL & rest & oA & Hcalls & _)]);
      cbv zeta in *.
    + rewrite Hrep in Hout. injection Hout as <-. subst rep'. exfalso.
      destruct os as [|o1 [|o2 [|o3 [|o4 [|o5 os]]]]]; cbn in Hlen, Herr;
        try discriminate; lia.
    + rewrite Hcalls. apply attempted_app_r, attempted_cons, attempted_app_r,
        attempted_head.
Qed.

Lemma identity_deletion_is_last_witness :
  calls (V2.deleteUserData sample_env "abc-123" sample_heap) =
  ([mkEvent (Delete "replicate_predictions" "user_id" "abc-123") Done;
    mkEvent (Delete "replicate_trainings" "user_id" "abc-123") Done;
    mkEvent (Delete "push_tokens" "user_id" "abc-123") Done;
    mkEvent (Delete "user_credits" "user_id" "abc-123") Done;
    mkEvent (Delete "transactions" "user_id" "abc-123") Done;
    mkEvent (ListObjects "abc-123/") (Listed ["abc-123/a"; "abc-123/b"]);
    mkEvent (DeleteObjects ["abc-123/a"]) Done;
    mkEvent (DeleteObjects ["abc-123/b"]) Done] ++
   mkEvent (DeleteUser "abc-123") Done :: [])%list /\
  all_attempted (catalogue_V2 "abc-123")
    [mkEvent (Delete "replicate_predictions" "user_id" "abc-123") Done;
     mkEvent (Delete "replicate_trainings" "user_id" "abc-123") Done;
     mkEvent (Delete "push_tokens" "user_id" "abc-123") Done;
     mkEvent (Delete "user_credits" "user_id" "abc-123") Done;
     mkEvent (Delete "transactions" "user_id" "abc-123") Done;
     mkEvent (ListObjects "abc-123/") (Listed ["abc-123/a"; "abc-123/b"]);
     mkEvent (DeleteObjects ["abc-123/a"]) Done;
     mkEvent (DeleteObjects ["abc-123/b"]) Done].
Proof.
  pose proof (proj1 (proj2 (identity_deletion_is_last sample_env "abc-123" sample_heap))
                _ _ _ sample_pipeline_calls eq_refl) as (_ & _ & _ & W).
  split; [exact sample_pipeline_calls|exact W].
Defined.

(** C4, as the worker implements it.  The pipeline of the second version
    never throws.  In every execution in which the Supabase client answers
    its calls (failures of the relational store and of the identity provider
    come back in the [error] field, as the client reports them), every step
    of the catalogue is attempted and recorded under its name, and a step is
    recorded "error" exactly when its own call reported an error, or, for
    the object-store step, when a bucket call threw; the other steps are
    attempted all the same.  When a Supabase call itself rejects, the
    pipeline-wide handler ends the run there: that call is the last of the
    trace and the report carries [error: 'Process failed'].  In the first
    version a failure of [bucket.delete] inside [deleteR2Object] is caught
    there. *)
Theorem step_failures_are_isolated (E : Env) (uid : string) (h : Heap E) :
  (exists rep, outcome (V2.deleteUserData E uid h) = Normal rep) /\
  (forall rep,
     outcome (V2.deleteUserData E uid h) = Normal rep ->
     supabase_answered (calls (V2.deleteUserData E uid h)) = true ->
     map fst rep = step_names /\
     Forall (isolated rep (calls (V2.deleteUserData E uid h))) (supabase_steps uid) /\
     attempted (ListObjects (uid ++ "/")) (calls (V2.deleteUserData E uid h)) /\
     (get_property "r2Folder" rep = Some "error" <->
      bucket_threw (calls (V2.deleteUserData E uid h)))) /\
  (forall rep,
     outcome (V2.deleteUserData E uid h) = Normal rep ->
     supabase_answered (calls (V2.deleteUserData E uid h)) = false ->
     get_property "error" rep = Some "Process failed" /\
     exists pre ev,
       calls (V2.deleteUserData E uid h) = (pre ++ [ev])%list /\
       threw (outcome_of ev) = true /\ is_bucket (call ev) = false) /\
  (forall url pathname,
     URL_pathname E url = Some pathname ->
     outcome (V1.deleteR2Object E (Some url) h) = Normal tt /\
     exists o,
       calls (V1.deleteR2Object E (Some url) h) =
       [mkEvent (DeleteObjects [slice1 pathname]) o]).
Proof.
  split; [apply V2_deleteUserData_normal|]. split; [|split].
  - intros rep Hout Hans. now apply V2_isolation.
  - intros rep Hout Hans. now apply V2_abort.
  - intros url pathname Hurl. unfold V1.deleteR2Object. rewrite Hurl.
    unfold try_catch. rewrite bucket_delete_run. cbv zeta.
    destruct (fst (BUCKET_delete E [slice1 pathname] (world h))); cbn; eauto.
Qed.

Lemma step_failures_are_isolated_witness :
  supabase_answered
    (calls (V2.deleteUserData trainings_error_env "abc-123" trainings_error_heap)) = true /\
  Forall (isolated
            [("predictions", "success"); ("trainings", "error"); ("pushToken", "success");
             ("credits", "success"); ("transactions", "success"); ("r2Folder", "success");
             ("auth", "success")]
            (calls (V2.deleteUserData trainings_error_env "abc-123" trainings_error_heap)))
         (supabase_steps "abc-123").
Proof.
  pose proof (proj1 (proj2 (step_failures_are_isolated
                              trainings_error_env "abc-123" trainings_error_heap))
                _ trainings_error_outcome trainings_error_answered) as (_ & W & _).
  split; [exact trainings_error_answered|exact W].
Defined.

(** C4 as stated fails: when the first relational delete itself rejects,
    the pipeline-wide handler of the second version ends the run; the
    report holds only [error: 'Process failed'], and neither the bucket nor
    the identity provider is called. *)
Lemma rejected_call_skips_later_steps :
  outcome (V2.deleteUserData predictions_reject_env "abc-123" predictions_reject_heap) =
    Normal [("error", "Process failed")] /\
  issued (V2.deleteUserData predictions_reject_env "abc-123" predictions_reject_heap) =
    [Delete "replicate_predictions" "user_id" "abc-123"].
Proof. vm_compute. split; reflexivity. Qed.

(** C1, as the worker implements it.  On healthy backends the object-store
    step of either version lists the subject's prefix once, takes the keys
    of that one page and deletes them, all of them and nothing else.  When
    the keys under the prefix fit in one listing page, no key with prefix
    "<subjectId>/" remains once the step has completed. *)
Theorem one_page_is_listed_and_deleted (limit : nat) (s : Store) (uid : string) :
  let listed := page limit (uid ++ "/") s in
  let r1 := V1.deleteUserFolder (healthy_env limit) uid (healthy_heap limit s) in
  let r2 := V2.deleteUserFolder (healthy_env limit) uid (healthy_heap limit s) in
  issued r1 =
    ListObjects (uid ++ "/") ::
    match listed with [] => [] | _ :: _ => [DeleteObjects listed] end /\
  issued r2 =
    ListObjects (uid ++ "/") :: map (fun key => DeleteObjects [key]) listed /\
  (forall k, In k (objects (world (final r1))) <-> In k (objects s) /\ ~ In k listed) /\
  (forall k, In k (objects (world (final r2))) <-> In k (objects s) /\ ~ In k listed) /\
  (length (keys_under (uid ++ "/") s) <= limit ->
   keys_under (uid ++ "/") (world (final r1)) = [] /\
   keys_under (uid ++ "/") (world (final r2)) = []).
Proof.
  cbv zeta. unfold healthy_heap, healthy_env, start.
  rewrite healthy_V1_deleteUserFolder, healthy_V2_deleteUserFolder. cbv zeta.
  unfold issued. cbn [calls final world map call].
  assert (H1 : forall k,
    In k (objects match page limit (uid ++ "/") s with
                  | [] => s
                  | _ :: _ => without_objects (page limit (uid ++ "/") s) s
                  end) <->
    In k (objects s) /\ ~ In k (page limit (uid ++ "/") s)).
  { intros k. destruct (page limit (uid ++ "/") s) as [|key keys] eqn:Hpage.
    - cbn. tauto.
    - apply objects_without_objects. }
  assert (H2 := objects_without_each (page limit (uid ++ "/") s) s).
  split.
  { destruct (page limit (uid ++ "/") s); reflexivity. }
  split.
  { rewrite map_map. reflexivity. }
  split; [exact H1|]. split; [exact H2|].
  intros Hfit.
  assert (Hall : page limit (uid ++ "/") s = keys_under (uid ++ "/") s).
  { unfold page. now apply firstn_whole. }
  split; eapply nothing_left_under; eauto.
Qed.

Lemma one_page_is_listed_and_deleted_witness :
  length (keys_under ("abc-123" ++ "/") sample_store) <= 3 /\
  keys_under ("abc-123" ++ "/")
    (world (final (V2.deleteUserFolder roomy_env "abc-123" roomy_heap))) = [].
Proof.
  pose proof (proj2 (proj2 (proj2 (proj2
                (one_page_is_listed_and_deleted 3 sample_store "abc-123"))))
                sample_fits_roomy_page) as (_ & W).
  split; [exact sample_fits_roomy_page|exact W].
Defined.

(** C1 as stated fails: with three keys under the prefix and pages of two
    keys, the step of either version completes and one key is left. *)
Lemma second_page_is_left_behind :
  keys_under "abc-123/" sample_store = ["abc-123/a"; "abc-123/b"; "abc-123/c"] /\
  outcome (V1.deleteUserFolder sample_env "abc-123" sample_heap) = Normal tt /\
  keys_under "abc-123/"
    (world (final (V1.deleteUserFolder sample_env "abc-123" sample_heap))) =
    ["abc-123/c"] /\
  outcome (V2.deleteUserFolder sample_env "abc-123" sample_heap) = Normal tt /\
  keys_under "abc-123/"
    (world (final (V2.deleteUserFolder sample_env "abc-123" sample_heap))) =
    ["abc-123/c"].
Proof. vm_compute. repeat split. Qed.

(** C7, as the worker implements it.  On healthy backends two runs of the
    pipeline in succession for the same subject both record "success" for
    the five relational steps and "success" or "no files found" for the
    object-store step.  The identity step of the second run is recorded
    "error": the record is gone and the provider says so.  When the
    subject's keys fit in one listing page the second run finds nothing to
    delete in the bucket.  After the first run no token resolves to the
    subject any more. *)
Theorem repeated_erasure_on_healthy_backends (limit : nat) (s : Store) (uid : string) :
  let r1 := V2.deleteUserData (healthy_env limit) uid (healthy_heap limit s) in
  let r2 := V2.deleteUserData (healthy_env limit) uid (start (world (final r1))) in
  exists listed1 listed2,
    outcome r1 = Normal (healthy_report listed1 (mem_string uid (users s))) /\
    outcome r2 = Normal (healthy_report listed2 false) /\
    (length (keys_under (uid ++ "/") s) <= limit -> listed2 = []) /\
    (forall token, verify (E:=healthy_env limit) (world (final r1)) token <> Live uid).
Proof.
  cbv zeta. unfold healthy_heap, start.
  destruct (healthy_V2_deleteUserData limit uid s []) as [H1 W1]. cbv zeta in *.
  rewrite W1.
  destruct (healthy_V2_deleteUserData limit uid (erased_store limit uid s) [])
    as [H2 _]. cbv zeta in *.
  rewrite erased_store_no_user in H2.
  do 2 eexists. split; [exact H1|]. split; [exact H2|]. split.
  2:{ intros token. apply no_token_resolves. apply erased_store_no_user. }
  intros Hfit. unfold page.
  replace (filter (String.prefix (uid ++ "/"))
             (objects (without_subject_rows uid (erased_store limit uid s))))
    with (@nil string); [now destruct limit|].
  symmetry.
  apply (nothing_left_under (uid ++ "/") s _ (page limit (uid ++ "/") s)).
  - intros k. unfold erased_store. cbv zeta.
    change (objects (without_subject_rows uid ?x)) with (objects x).
    set (s2 := without_each _ _).
    assert (Hs2 : forall k, In k (objects s2) <->
                            In k (objects s) /\ ~ In k (page limit (uid ++ "/") s)).
    { intros k'. unfold s2. rewrite objects_without_each. reflexivity. }
    destruct (mem_string uid (users s2)); [|apply Hs2].
    change (objects (without_user uid s2)) with (objects s2). apply Hs2.
  - unfold page. now apply firstn_whole.
Qed.

Lemma repeated_erasure_on_healthy_backends_witness :
  length (keys_under ("abc-123" ++ "/") sample_store) <= 3 /\
  exists listed1,
    outcome (V2.deleteUserData roomy_env "abc-123" roomy_heap) =
      Normal (healthy_report listed1 true) /\
    outcome (V2.deleteUserData roomy_env "abc-123"
               (start (world (final (V2.deleteUserData roomy_env "abc-123" roomy_heap))))) =
      Normal (healthy_report [] false).
Proof.
  pose proof (repeated_erasure_on_healthy_backends 3 sample_store "abc-123")
    as (listed1 & listed2 & H1 & H2 & Hfit & _).
  split; [exact sample_fits_roomy_page|].
  exists listed1. split; [exact H1|].
  rewrite <- (Hfit sample_fits_roomy_page). exact H2.
Defined.

(** C7 as stated fails.  After a first request answered 200 with every
    step "success", the same request is answered 401 by either version,
    because its token no longer resolves to a live identity; and a second
    run of the pipeline itself records "error" for the identity step. *)
Lemma second_erasure_is_not_all_success :
  outcome (V2.fetch sample_env sample_request sample_heap) =
    Normal (mkResponse 200
              (JsonDetails "User data deleted successfully"
                           (healthy_report ["abc-123/a"] true))) /\
  response_status (V2.fetch sample_env sample_request after_first_request_V2) = Some 401 /\
  response_status (V1.fetch sample_env sample_request sample_heap) = Some 200 /\
  response_status (V1.fetch sample_env sample_request after_first_request_V1) = Some 401 /\
  outcome (V2.deleteUserData sample_env "abc-123" after_first_pipeline) =
    Normal (healthy_report ["abc-123/c"] false) /\
  get_property "auth" (healthy_report ["abc-123/c"] false) = Some "error".
Proof. vm_compute. repeat split. Qed.

(** * Further properties of the worker *)

(** ** The method guard and the token *)

(** X1.  A request whose method is not POST is answered 405 by both
    versions before anything else is looked at: no backend call is issued,
    not even the verification of a token, and the backends are left as
    they were. *)
Theorem other_methods_are_refused (E : Env) (request : Request) (h : Heap E) :
  method request <> "POST" ->
  response_status (V1.fetch E request h) = Some 405 /\
  response_status (V2.fetch E request h) = Some 405 /\
  calls (V1.fetch E request h) = [] /\
  calls (V2.fetch E request h) = [] /\
  final (V1.fetch E request h) = h /\
  final (V2.fetch E request h) = h.
Proof.
  intros Hm. unfold response_status.
  destruct (fetch_other_method E request h Hm) as [-> ->]. cbn. auto 10.
Qed.

Lemma other_methods_are_refused_witness :
  method get_request <> "POST" /\
  response_status (V1.fetch sample_env get_request sample_heap) = Some 405 /\
  calls (V2.fetch sample_env get_request sample_heap) = [].
Proof.
  assert (Hm : method get_request <> "POST") by discriminate.
  pose proof (other_methods_are_refused sample_env get_request sample_heap Hm)
    as (A & _ & _ & B & _).
  split; [exact Hm|]. split; [exact A|exact B].
Defined.

Lemma prefix_empty (s : string) : String.prefix "" s = true.
Proof. destruct s; reflexivity. Qed.

Lemma starts_with_Bearer (t : string) : startsWith ("Bearer " ++ t) "Bearer " = true.
Proof. unfold startsWith. cbn. apply prefix_empty. Qed.

Lemma split_spaceless (t : string) :
  spaceless t = true -> split " " t = [t].
Proof.
  induction t as [|c t IH]; cbn; [reflexivity|].
  intros H. apply andb_true_iff in H. destruct H as [Hc Ht].
  apply negb_true_iff in Hc. rewrite Hc, (IH Ht). reflexivity.
Qed.

Lemma split_first_word (t rest : string) :
  spaceless t = true ->
  split " " (t ++ String " " rest) = t :: split " " rest.
Proof.
  induction t as [|c t IH]; cbn; [reflexivity|].
  intros H. apply andb_true_iff in H. destruct H as [Hc Ht].
  apply negb_true_iff in Hc. rewrite Hc, (IH Ht). reflexivity.
Qed.

(** X2.  The token both versions hand to the identity provider is the
    second space-separated word of the Authorization header: for a header
    "Bearer <t>" with a token free of spaces it is <t>, and whatever
    follows a further space is dropped. *)
Theorem bearer_token_is_second_word (verb t rest : string) (b : Body) :
  spaceless t = true ->
  bearer_token (mkRequest verb (Some ("Bearer " ++ t)) b) = Some t /\
  bearer_token (mkRequest verb (Some ("Bearer " ++ t ++ String " " rest)) b) = Some t.
Proof.
  intros Ht. unfold bearer_token. cbn [Authorization].
  split.
  - rewrite starts_with_Bearer.
    change ("Bearer " ++ t) with ("Bearer" ++ String " " t).
    rewrite split_first_word by reflexivity.
    rewrite (split_spaceless t Ht). reflexivity.
  - rewrite starts_with_Bearer.
    change ("Bearer " ++ t ++ String " " rest)
      with ("Bearer" ++ String " " (t ++ String " " rest)).
    rewrite split_first_word by reflexivity.
    rewrite (split_first_word t rest Ht). reflexivity.
Qed.

Lemma bearer_token_is_second_word_witness :
  spaceless "tok" = true /\
  bearer_token (mkRequest "POST" (Some "Bearer tok trailing words") Malformed) = Some "tok".
Proof.
  pose proof (bearer_token_is_second_word "POST" "tok" "trailing words" Malformed eq_refl)
    as (_ & W).
  split; [reflexivity|exact W].
Defined.

(** ** The body of an authenticated request *)

Lemma missing_subject_authenticated :
  authenticated sample_world missing_subject_request "tok" "abc-123".
Proof. repeat split. Qed.

Lemma null_body_authenticated :
  authenticated sample_world null_body_request "tok" "abc-123".
Proof. repeat split. Qed.

(** X3.  On an authenticated request whose body carries no usable
    [user_id], the two versions differ.  The first answers 403 when the
    value is falsy (absent, null, empty string, zero or false) and lets a
    TypeError escape when it is a truthy value that is not a string; the
    second answers 500 for every value that is not a string.  In all these
    cases the only backend call is the verification of the token. *)
Theorem unusable_subject_id
    (E : Env) (w : World E) (request : Request) (token uid : string) (v : JsValue) :
  authenticated w request token uid ->
  body request = JsonValue v ->
  (falsy v = true ->
   response_status (V1.fetch E request (start w)) = Some 403 /\
   issued (V1.fetch E request (start w)) = [GetUser token]) /\
  (falsy v = false -> (forall s, v <> JsString s) ->
   outcome (V1.fetch E request (start w)) = Thrown "TypeError" /\
   issued (V1.fetch E request (start w)) = [GetUser token]) /\
  ((forall s, v <> JsString s) ->
   response_status (V2.fetch E request (start w)) = Some 500 /\
   issued (V2.fetch E request (start w)) = [GetUser token]).
Proof.
  intros Hauth Hbody.
  destruct (V1_fetch_authenticated E w request token uid Hauth) as (o1 & ->).
  destruct (V2_fetch_authenticated E w request token uid v Hauth Hbody) as (o2 & ->).
  unfold request_json_user_id, response_status, issued. rewrite Hbody, bind_ret.
  split; [|split].
  - intros ->. cbn. auto.
  - intros Hf Hv. destruct v as [| |s|truthy]; try discriminate.
    + now destruct (Hv s).
    + cbn [falsy] in *. rewrite Hf. cbn. auto.
  - intros Hv.
    rewrite (try_catch_thrown E _ _ _ "TypeError")
      by (destruct v as [| |s|truthy]; [reflexivity|reflexivity|now destruct (Hv s)|reflexivity]).
    destruct v as [| |s|truthy]; [| |now destruct (Hv s)|]; cbn; auto.
Qed.

Lemma unusable_subject_id_witness :
  authenticated sample_world missing_subject_request "tok" "abc-123" /\
  response_status (V1.fetch sample_env missing_subject_request sample_heap) = Some 403 /\
  response_status (V2.fetch sample_env missing_subject_request sample_heap) = Some 500.
Proof.
  pose proof (unusable_subject_id sample_env sample_world missing_subject_request
                "tok" "abc-123" JsUndefined missing_subject_authenticated eq_refl)
    as (A & _ & B).
  split; [exact missing_subject_authenticated|].
  split; [exact (proj1 (A eq_refl))|].
  apply B. discriminate.
Defined.

(** X4.  In the first version the body is read after the token has been
    verified and outside any [try]: on an authenticated request whose body
    is not JSON, or is the JSON value null, the exception escapes [fetch];
    the verification of the token is the only backend call. *)
Theorem V1_unreadable_body_escapes
    (E : Env) (w : World E) (request : Request) (token uid : string) :
  authenticated w request token uid ->
  body request = Malformed \/ body request = JsonNull ->
  response_status (V1.fetch E request (start w)) = None /\
  issued (V1.fetch E request (start w)) = [GetUser token].
Proof.
  intros Hauth Hbody.
  destruct (V1_fetch_authenticated E w request token uid Hauth) as (o1 & ->).
  unfold request_json_user_id, response_status, issued.
  destruct Hbody as [-> | ->]; cbn; auto.
Qed.

Lemma V1_unreadable_body_escapes_witness :
  authenticated sample_world null_body_request "tok" "abc-123" /\
  response_status (V1.fetch sample_env null_body_request sample_heap) = None.
Proof.
  pose proof (V1_unreadable_body_escapes sample_env sample_world null_body_request
                "tok" "abc-123" null_body_authenticated (or_intror eq_refl))
    as (A & _).
  split; [exact null_body_authenticated|exact A].
Defined.

(** ** An identity provider that cannot be reached *)

Lemma POST_bearer_header (request : Request) (token : string) :
  bearer_token request = Some token ->
  exists authHeader,
    Authorization request = Some authHeader /\
    startsWith authHeader "Bearer " = true /\
    nth 1 (split " " authHeader) "" = token.
Proof.
  unfold bearer_token. destruct (Authorization request) as [a|]; [|discriminate].
  destruct (startsWith a "Bearer ") eqn:Hs; [|discriminate].
  intros H. injection H as H. eauto.
Qed.

(** X5.  When the verification call itself rejects, no deletion is
    attempted: the first version lets the exception escape, the second
    answers 500, and the trace holds the verification call alone. *)
Theorem unreachable_provider_stops_the_request
    (E : Env) (w : World E) (request : Request) (token : string) :
  method request = "POST" ->
  bearer_token request = Some token ->
  verify w token = Unreachable ->
  response_status (V1.fetch E request (start w)) = None /\
  issued (V1.fetch E request (start w)) = [GetUser token] /\
  (forall v, body request = JsonValue v ->
   response_status (V2.fetch E request (start w)) = Some 500 /\
   issued (V2.fetch E request (start w)) = [GetUser token]).
Proof.
  intros Hm Hb Hv.
  destruct (POST_bearer_header request token Hb) as (a & Ha & Hs & Ht).
  unfold verify in Hv. unfold V1.fetch, V2.fetch, response_status, issued.
  rewrite Hm, String.eqb_refl, Ha, empty_header_not_bearer, Hs, Ht. cbn [negb].
  unfold getUser. rewrite bind_await. unfold start. cbn [world results].
  split; [|split].
  - destruct (fst (auth_getUser E token w)) as [[[u|]|m]|reason]; try discriminate.
    reflexivity.
  - destruct (fst (auth_getUser E token w)) as [[[u|]|m]|reason]; try discriminate.
    reflexivity.
  - intros v Hbody. unfold request_json_user_id. rewrite Hbody.
    destruct (fst (auth_getUser E token w)) as [[[u|]|m]|reason] eqn:Hg;
      try discriminate.
    rewrite (try_catch_thrown E _ _ _ reason)
      by (rewrite bind_ret, bind_await; cbn [world results];
          rewrite Hg; reflexivity).
    rewrite bind_ret, bind_await. cbn [world results]. rewrite Hg.
    cbn. auto.
Qed.

Lemma unreachable_provider_stops_the_request_witness :
  verify provider_down_world "tok" = Unreachable /\
  response_status (V1.fetch provider_down_env sample_request provider_down_heap) = None /\
  response_status (V2.fetch provider_down_env sample_request provider_down_heap) = Some 500.
Proof.
  pose proof (unreachable_provider_stops_the_request
                provider_down_env provider_down_world sample_request "tok"
                eq_refl eq_refl eq_refl) as (A & _ & B).
  split; [reflexivity|]. split; [exact A|].
  exact (proj1 (B (JsString "ABC-123") eq_refl)).
Defined.

(** ** The pipeline of the second version *)

Lemma relational_events_table uid os ev :
  In ev (relational_events uid os) ->
  exists table, In table relational_tables /\ call ev = Delete table "user_id" uid.
Proof.
  unfold relational_events. intros H. apply in_map_iff in H.
  destruct H as ([c o] & <- & H). apply in_combine_l in H.
  apply in_map_iff in H. destruct H as (table & <- & Hin). cbn.
  exists table. split; [exact Hin|reflexivity].
Qed.

(** X6.  Every backend call of the second version's pipeline concerns the
    subject it was started for: the filtered deletes are on the five
    tables with the subject's id, the only listing is that of the subject's
    prefix, every object delete is for one key that this listing returned,
    and the only identity deleted is the subject's. *)
Theorem V2_pipeline_calls_concern_the_subject (E : Env) (uid : string) (h : Heap E) :
  Forall (fun ev => concerns uid (calls (V2.deleteUserData E uid h)) (call ev))
         (calls (V2.deleteUserData E uid h)).
Proof.
  apply Forall_forall. intros ev Hin.
  destruct (V2_deleteUserData_shape E uid h)
    as (rep & os & Hrep & Hos & [(Hlen & reason & Hcalls & _)
         |(Hlen & oL & rest & oA & Hcalls & Hrest & HoL & _)]);
    cbv zeta in *; rewrite Hcalls in *.
  - left. now apply relational_events_table in Hin.
  - apply in_app_or in Hin. destruct Hin as [Hin|[<-|Hin]].
    + left. now apply relational_events_table in Hin.
    + right. left. reflexivity.
    + apply in_app_or in Hin. destruct Hin as [Hin|[<-|[]]].
      * right. right. left.
        pose proof (in_map call _ _ Hin) as Hc. rewrite Hrest in Hc.
        apply in_map_iff in Hc. destruct Hc as (key & Hkey & Hk).
        destruct HoL as [Ht|[keys ->]].
        { destruct oL; try discriminate; destruct Hk. }
        exists key, keys. split; [now symmetry|]. split; [exact Hk|].
        apply in_or_app. right. now left.
      * right. right. right. reflexivity.
Qed.

Lemma relational_report_keys (os : list Outcome) :
  length os <= 5 ->
  map fst (relational_report os) = firstn (length os) step_names /\
  Forall (fun kv => In (snd kv) status_words) (relational_report os).
Proof.
  intros Hlen.
  destruct os as [|o1 [|o2 [|o3 [|o4 [|o5 [|o6 os]]]]]]; cbn in Hlen; try lia;
    (split; [reflexivity|]);
    repeat (apply Forall_cons; [cbn; match goal with
                                     | |- context [recorded ?o] =>
                                         destruct (recorded_words o) as [->| ->]; auto
                                     end|]);
    apply Forall_nil.
Qed.

Lemma folder_word_words (o : Outcome) (rest : list Event) :
  In (folder_word o rest) status_words.
Proof.
  unfold folder_word, status_words.
  destruct o as [|[|k keys]| |]; cbn; auto.
  destruct (existsb _ rest); cbn; auto.
Qed.

(** X7.  The pipeline of the second version always returns a report.  Its
    keys are the seven step names in catalogue order, or a proper prefix of
    them followed by [error]; in the second case the value of [error] is
    'Process failed'.  Every step entry holds one of the words 'success',
    'error' and 'no files found'. *)
Theorem V2_report_is_complete_or_flagged (E : Env) (uid : string) (h : Heap E) :
  exists rep,
    outcome (V2.deleteUserData E uid h) = Normal rep /\
    (map fst rep = step_names \/
     exists n, n <= 6 /\
       map fst rep = (firstn n step_names ++ ["error"])%list /\
       get_property "error" rep = Some "Process failed") /\
    Forall (fun kv => fst kv = "error" \/ In (snd kv) status_words) rep.
Proof.
  destruct (V2_deleteUserData_shape E uid h)
    as (rep & os & Hrep & Hos & [(Hlen & reason & Hcalls & ->)
         |(Hlen & oL & rest & oA & Hcalls & Hrest & HoL & HoA & ->)]);
    cbv zeta in *; eexists; (split; [exact Hrep|]).
  - destruct (relational_report_keys os) as [Hk Hw]; [lia|].
    split.
    + right. exists (length os). split; [lia|]. split.
      * rewrite map_app, Hk. reflexivity.
      * destruct os as [|o1 [|o2 [|o3 [|o4 [|o5 os]]]]]; cbn in Hlen; try lia;
          reflexivity.
    + apply Forall_app. split.
      * eapply Forall_impl; [|exact Hw]. cbn. auto.
      * repeat constructor.
  - destruct (relational_report_keys os) as [Hk Hw]; [lia|].
    split.
    + destruct (threw oA) eqn:Ht.
      * right. exists 6. split; [lia|].
        destruct os as [|o1 [|o2 [|o3 [|o4 [|o5 [|]]]]]]; try discriminate.
        split; reflexivity.
      * left. destruct os as [|o1 [|o2 [|o3 [|o4 [|o5 [|]]]]]]; try discriminate.
        reflexivity.
    + apply Forall_app. split.
      * eapply Forall_impl; [|exact Hw]. cbn. auto.
      * apply Forall_cons; [right; apply folder_word_words|].
        destruct (threw oA).
        -- repeat constructor.
        -- apply Forall_cons; [|apply Forall_nil]. right. cbn.
           destruct (recorded_words oA) as [->| ->]; auto.
Qed.

(** ** The object-store step of each version *)

Lemma get_set_property (k v : string) (o : Results) :
  get_property k (set_property k v o) = Some v.
Proof.
  induction o as [|[k' v'] o IH]; cbn.
  - now rewrite String.eqb_refl.
  - destruct (String.eqb k' k) eqn:Hk; cbn.
    + now rewrite String.eqb_refl.
    + now rewrite Hk.
Qed.

(** X8.  In the second version a delete is issued for every key of the
    listing, one call per key and in the order of the listing, whatever the
    other deletes answer.  The step never throws; it records
    'no files found' for an empty listing, 'error' when the listing or one
    of the deletes threw, and 'success' otherwise. *)
Theorem every_listed_key_gets_its_delete (E : Env) (uid : string) (h : Heap E) :
  (forall keys,
     fst (BUCKET_list E (uid ++ "/") (world h)) = Resolved keys ->
     let r := V2.deleteUserFolder E uid h in
     outcome r = Normal tt /\
     issued r = ListObjects (uid ++ "/") :: map (fun key => DeleteObjects [key]) keys /\
     get_property "r2Folder" (results (final r)) =
       Some (folder_word_after keys (calls r))) /\
  (forall reason,
     fst (BUCKET_list E (uid ++ "/") (world h)) = Rejected reason ->
     let r := V2.deleteUserFolder E uid h in
     outcome r = Normal tt /\
     issued r = [ListObjects (uid ++ "/")] /\
     get_property "r2Folder" (results (final r)) = Some "error").
Proof.
  split.
  - intros keys Hlist. cbv zeta.
    unfold V2.deleteUserFolder, bucket_list, issued.
    rewrite try_catch_bind_await, Hlist.
    destruct keys as [|k keys].
    { cbn. rewrite get_set_property. auto. }
    cbn [length Nat.ltb Nat.leb].
    set (h' := mkHeap E _ _).
    destruct (delete_all_calls E (k :: keys) h') as (D1 & D2 & D3 & D4).
    cbv zeta in *.
    set (pa := Promise_all _ h') in *.
    destruct (outcome pa) as [vs|reason] eqn:Hpa.
    + rewrite (try_catch_bind_normal E _ _ _ _ vs Hpa).
      unfold set_result, prepend, try_catch.
      cbn [outcome final calls results world app]. fold pa.
      rewrite app_nil_r, D2, get_set_property.
      change (map call (?e :: calls pa)) with (call e :: map call (calls pa)).
      rewrite D1.
      cbn [folder_word_after existsb outcome_of threw orb call].
      rewrite <- D4. auto.
    + rewrite (try_catch_thrown E _ _ _ reason)
        by (rewrite (bind_thrown E _ _ _ reason Hpa); reflexivity).
      rewrite (bind_thrown E _ _ _ reason Hpa).
      unfold set_result, prepend.
      cbn [outcome final calls results world app]. fold pa.
      rewrite app_nil_r, D2, get_set_property.
      change (map call (?e :: calls pa)) with (call e :: map call (calls pa)).
      rewrite D1.
      cbn [folder_word_after existsb outcome_of threw orb call].
      rewrite <- D4. auto.
  - intros reason Hlist. cbv zeta.
    unfold V2.deleteUserFolder, bucket_list, issued.
    rewrite try_catch_bind_await, Hlist. cbn.
    rewrite get_set_property. auto.
Qed.

Lemma bucket_delete_down_listing :
  fst (BUCKET_list bucket_delete_down_env ("abc-123" ++ "/")
         (world bucket_delete_down_heap)) =
  Resolved ["abc-123/a"; "abc-123/b"].
Proof. reflexivity. Qed.

Lemma every_listed_key_gets_its_delete_witness :
  fst (BUCKET_list bucket_delete_down_env ("abc-123" ++ "/")
         (world bucket_delete_down_heap)) =
  Resolved ["abc-123/a"; "abc-123/b"] /\
  issued (V2.deleteUserFolder bucket_delete_down_env "abc-123" bucket_delete_down_heap) =
  [ListObjects "abc-123/"; DeleteObjects ["abc-123/a"]; DeleteObjects ["abc-123/b"]].
Proof.
  pose proof (proj1 (every_listed_key_gets_its_delete
                       bucket_delete_down_env "abc-123" bucket_delete_down_heap)
                _ bucket_delete_down_listing) as (_ & W & _).
  split; [exact bucket_delete_down_listing|exact W].
Defined.

(** X9.  In the first version the keys of the listing are deleted by one
    batched call; an empty listing issues no delete.  The step never throws,
    whether the listing or the delete rejects. *)
Theorem V1_folder_deletes_the_page_in_one_call (E : Env) (uid : string) (h : Heap E) :
  outcome (V1.deleteUserFolder E uid h) = Normal tt /\
  (forall keys,
     fst (BUCKET_list E (uid ++ "/") (world h)) = Resolved keys ->
     issued (V1.deleteUserFolder E uid h) =
     ListObjects (uid ++ "/") ::
     match keys with [] => [] | _ :: _ => [DeleteObjects keys] end) /\
  (forall reason,
     fst (BUCKET_list E (uid ++ "/") (world h)) = Rejected reason ->
     issued (V1.deleteUserFolder E uid h) = [ListObjects (uid ++ "/")]).
Proof.
  unfold V1.deleteUserFolder, bucket_list, issued.
  rewrite try_catch_bind_await.
  destruct (fst (BUCKET_list E (uid ++ "/") (world h))) as [keys|reason] eqn:Hlist.
  - destruct keys as [|k keys].
    + cbn. split; [reflexivity|]. split.
      * intros keys H. injection H as <-. reflexivity.
      * intros reason H. discriminate.
    + cbn [length Nat.ltb Nat.leb]. unfold try_catch.
      rewrite bucket_delete_run. cbv zeta.
      destruct (fst (BUCKET_delete E (k :: keys) _)); cbn;
        (split; [reflexivity|]); (split; [intros keys' H; injection H as <-; reflexivity
                                         |intros reason' H; discriminate]).
  - cbn. split; [reflexivity|]. split.
    + intros keys H. discriminate.
    + intros reason' H. reflexivity.
Qed.

Lemma V1_folder_deletes_the_page_in_one_call_witness :
  fst (BUCKET_list bucket_delete_down_env ("abc-123" ++ "/")
         (world bucket_delete_down_heap)) =
  Resolved ["abc-123/a"; "abc-123/b"] /\
  issued (V1.deleteUserFolder bucket_delete_down_env "abc-123" bucket_delete_down_heap) =
  [ListObjects "abc-123/"; DeleteObjects ["abc-123/a"; "abc-123/b"]].
Proof.
  pose proof (proj1 (proj2 (V1_folder_deletes_the_page_in_one_call
                       bucket_delete_down_env "abc-123" bucket_delete_down_heap))
                _ bucket_delete_down_listing) as W.
  split; [exact bucket_delete_down_listing|exact W].
Defined.

(** ** The reference-tracked deletion of the first version *)

Lemma map_as_flat_map {A B} (f : A -> B) (l : list A) :
  map f l = flat_map (fun x => [f x]) l.
Proof. induction l as [|x l IH]; cbn; [reflexivity|now rewrite IH]. Qed.

Section Traces.
Variable E : Env.

Lemma traces_ret {A} (v : A) : traces (ret (E:=E) v) [].
Proof. intros h. split; [eexists|]; reflexivity. Qed.

Lemma traces_bind {A B} (m : M E A) (k : A -> M E B) c1 c2 :
  traces m c1 -> (forall v, traces (k v) c2) -> traces (bind m k) (c1 ++ c2)%list.
Proof.
  intros Hm Hk h. destruct (Hm h) as [[v Hv] Hc].
  rewrite (bind_normal E m k h v Hv). unfold prepend, issued in *. cbn.
  destruct (Hk v (final (m h))) as [Hv' Hc'].
  split; [exact Hv'|]. rewrite map_app. unfold issued in Hc'. now rewrite Hc, Hc'.
Qed.

Lemma traces_for_of {A} (xs : list A) (body : A -> M E unit) (f : A -> list Call) :
  Forall (fun x => traces (body x) (f x)) xs ->
  traces (for_of xs body) (flat_map f xs).
Proof.
  induction 1 as [|x xs Hx Hxs IH]; cbn [for_of flat_map].
  - apply traces_ret.
  - apply traces_bind; auto.
Qed.

Lemma traces_deleteR2Object (url : string) :
  parses E url ->
  traces (V1.deleteR2Object E (Some url)) [DeleteObjects [object_key E url]].
Proof.
  unfold parses, object_key, V1.deleteR2Object. intros Hurl h.
  destruct (URL_pathname E url) as [pathname|]; [|contradiction].
  unfold try_catch, issued. rewrite bucket_delete_run. cbv zeta.
  destruct (fst (BUCKET_delete E [slice1 pathname] (world h))); cbn; eauto.
Qed.

Lemma traces_row_delete (table column value : string) :
  deletes_are_answered E ->
  traces (from_delete_eq E table column value ;; ret tt)
         [Delete table column value].
Proof.
  intros Hans h. unfold from_delete_eq, issued. rewrite bind_await.
  destruct (Hans table column value (world h)) as [reply ->]. cbn. eauto.
Qed.

Lemma traces_prediction (p : Prediction) :
  deletes_are_answered E ->
  Forall (parses E) (prediction_urls p) ->
  traces
    (match V1.truthy_string (input_url p) with
     | Some u =>
         V1.deleteR2Object E (Some u) ;;
         V1.deleteR2Object E (Some (strip_extension u ++ "_mask.png"))
     | None => ret tt
     end ;;
     match output_url p with
     | Some urls => for_of urls (fun url => V1.deleteR2Object E (Some url))
     | None => ret tt
     end ;;
     from_delete_eq E "replicate_predictions" "id" (prediction_id p) ;;
     ret tt)
    (prediction_calls E p).
Proof.
  intros Hans Hurls. unfold prediction_calls, prediction_urls in *.
  rewrite map_app, <- app_assoc.
  apply Forall_app in Hurls. destruct Hurls as [Hin Hout].
  apply traces_bind; [|intros _; apply traces_bind; [|intros _]].
  - destruct (V1.truthy_string (input_url p)) as [u|]; [|apply traces_ret].
    inversion Hin as [|? ? Hu Hin']; subst.
    inversion Hin' as [|? ? Hm _]; subst.
    apply (traces_bind _ _ [_] [_]); [|intros _];
      now apply traces_deleteR2Object.
  - destruct (output_url p) as [urls|]; [|apply traces_ret].
    rewrite map_as_flat_map.
    apply traces_for_of. eapply Forall_impl; [|exact Hout].
    intros url Hurl. now apply traces_deleteR2Object.
  - now apply traces_row_delete.
Qed.
End Traces.

Lemma healthy_deletes_are_answered (limit : nat) :
  deletes_are_answered (reference limit healthy).
Proof. intros table column value w. eexists. reflexivity. Qed.

Lemma sample_predictions_selected :
  fst (select_predictions sample_env "abc-123" (world sample_heap)) =
  Resolved (Data [sample_prediction]).
Proof. reflexivity. Qed.

Lemma sample_prediction_urls_parse :
  Forall (parses sample_env) (flat_map prediction_urls [sample_prediction]).
Proof. repeat constructor; discriminate. Qed.

Lemma sample_trainings_selected :
  fst (select_trainings sample_env "abc-123" (world sample_heap)) =
  Resolved (Data [sample_training]).
Proof. reflexivity. Qed.

Lemma sample_training_urls_parse :
  Forall (fun t => exists u, input_images t = Some u /\ parses sample_env u)
         [sample_training].
Proof. repeat constructor. eexists. split; [reflexivity|discriminate]. Qed.

(** X10.  When the relational client answers its deletes and every URL
    recorded on the selected prediction rows parses, [deletePredictions]
    completes and its calls are exactly these: the select, then for each
    row in turn the deletes of its input image, of the mask derived from
    it and of its output images, followed by the delete of the row by its
    id.  Failures of the bucket change nothing to this. *)
Theorem every_selected_prediction_is_processed
    (E : Env) (uid : string) (h : Heap E) (predictions : list Prediction) :
  deletes_are_answered E ->
  fst (select_predictions E uid (world h)) = Resolved (Data predictions) ->
  Forall (parses E) (flat_map prediction_urls predictions) ->
  outcome (V1.deletePredictions E uid h) = Normal tt /\
  issued (V1.deletePredictions E uid h) =
    Select "replicate_predictions" "user_id" uid ::
    flat_map (prediction_calls E) predictions.
Proof.
  intros Hans Hsel Hurls.
  unfold V1.deletePredictions, from_select_predictions, issued.
  rewrite bind_await, Hsel.
  set (h' := mkHeap E _ _).
  assert (Hloop : traces
            (for_of predictions (fun prediction =>
               match V1.truthy_string (input_url prediction) with
               | Some u =>
                   V1.deleteR2Object E (Some u) ;;
                   V1.deleteR2Object E (Some (strip_extension u ++ "_mask.png"))
               | None => ret tt
               end ;;
               match output_url prediction with
               | Some urls => for_of urls (fun url => V1.deleteR2Object E (Some url))
               | None => ret tt
               end ;;
               from_delete_eq E "replicate_predictions" "id" (prediction_id prediction) ;;
               ret tt))
            (flat_map (prediction_calls E) predictions)).
  { apply traces_for_of. apply Forall_flat_map in Hurls.
    eapply Forall_impl; [|exact Hurls]. intros p Hp. now apply traces_prediction. }
  destruct (Hloop h') as [[[] Hout] Hcalls].
  unfold prepend, issued in *. cbn [outcome calls app map call].
  rewrite Hout, Hcalls. auto.
Qed.

Lemma every_selected_prediction_is_processed_witness :
  deletes_are_answered sample_env /\
  issued (V1.deletePredictions sample_env "abc-123" sample_heap) =
  [Select "replicate_predictions" "user_id" "abc-123";
   DeleteObjects ["abc-123/in.png"];
   DeleteObjects ["abc-123/in_mask.png"];
   DeleteObjects ["abc-123/out.png"];
   Delete "replicate_predictions" "id" "p1"].
Proof.
  pose proof (every_selected_prediction_is_processed
                sample_env "abc-123" sample_heap [sample_prediction]
                (healthy_deletes_are_answered 2)
                sample_predictions_selected sample_prediction_urls_parse) as (_ & W).
  split; [exact (healthy_deletes_are_answered 2)|exact W].
Defined.

(** X11.  Under the same conditions, with every selected training row
    holding a URL that parses, [deleteTrainings] completes and issues the
    select, then for each row the delete of its input archive followed by
    the delete of the row by its id. *)
Theorem every_selected_training_is_processed
    (E : Env) (uid : string) (h : Heap E) (trainings : list Training) :
  deletes_are_answered E ->
  fst (select_trainings E uid (world h)) = Resolved (Data trainings) ->
  Forall (fun t => exists u, input_images t = Some u /\ parses E u) trainings ->
  outcome (V1.deleteTrainings E uid h) = Normal tt /\
  issued (V1.deleteTrainings E uid h) =
    Select "replicate_trainings" "user_id" uid ::
    flat_map (training_calls E) trainings.
Proof.
  intros Hans Hsel Hurls.
  unfold V1.deleteTrainings, from_select_trainings, issued.
  rewrite bind_await, Hsel.
  set (h' := mkHeap E _ _).
  assert (Hloop : traces
            (for_of trainings (fun training =>
               V1.deleteR2Object E (input_images training) ;;
               from_delete_eq E "replicate_trainings" "id" (training_id training) ;;
               ret tt))
            (flat_map (training_calls E) trainings)).
  { apply traces_for_of. eapply Forall_impl; [|exact Hurls].
    intros t (u & Hu & Hp). unfold training_calls. rewrite Hu.
    apply (traces_bind E _ _ [_] [_]).
    - now apply traces_deleteR2Object.
    - intros _. now apply traces_row_delete. }
  destruct (Hloop h') as [[[] Hout] Hcalls].
  unfold prepend, issued in *. cbn [outcome calls app map call].
  rewrite Hout, Hcalls. auto.
Qed.

Lemma every_selected_training_is_processed_witness :
  deletes_are_answered sample_env /\
  issued (V1.deleteTrainings sample_env "abc-123" sample_heap) =
  [Select "replicate_trainings" "user_id" "abc-123";
   DeleteObjects ["abc-123/set.zip"];
   Delete "replicate_trainings" "id" "t1"].
Proof.
  pose proof (every_selected_training_is_processed
                sample_env "abc-123" sample_heap [sample_training]
                (healthy_deletes_are_answered 2)
                sample_trainings_selected sample_training_urls_parse) as (_ & W).
  split; [exact (healthy_deletes_are_answered 2)|exact W].
Defined.

(** X12.  When the select that opens [deletePredictions] or
    [deleteTrainings] reports an error, the function returns normally after
    that one call: no image and no row of the table is deleted, and the
    pipeline goes on with its next step. *)
Theorem failed_select_skips_the_table (E : Env) (uid : string) (h : Heap E) :
  (forall message,
     fst (select_predictions E uid (world h)) = Resolved (Error message) ->
     outcome (V1.deletePredictions E uid h) = Normal tt /\
     issued (V1.deletePredictions E uid h) =
       [Select "replicate_predictions" "user_id" uid]) /\
  (forall message,
     fst (select_trainings E uid (world h)) = Resolved (Error message) ->
     outcome (V1.deleteTrainings E uid h) = Normal tt /\
     issued (V1.deleteTrainings E uid h) =
       [Select "replicate_trainings" "user_id" uid]).
Proof.
  split; intros message Hsel;
    unfold V1.deletePredictions, V1.deleteTrainings, from_select_predictions,
      from_select_trainings, issued;
    rewrite bind_await, Hsel; cbn; auto.
Qed.

Lemma predictions_select_fails :
  fst (select_predictions predictions_select_error_env "abc-123"
         (world predictions_select_error_heap)) = Resolved (Error "backend error").
Proof. reflexivity. Qed.

Lemma failed_select_skips_the_table_witness :
  fst (select_predictions predictions_select_error_env "abc-123"
         (world predictions_select_error_heap)) = Resolved (Error "backend error") /\
  issued (V1.deletePredictions predictions_select_error_env "abc-123"
            predictions_select_error_heap) =
  [Select "replicate_predictions" "user_id" "abc-123"].
Proof.
  pose proof (proj1 (failed_select_skips_the_table
                       predictions_select_error_env "abc-123"
                       predictions_select_error_heap)
                _ predictions_select_fails) as (_ & W).
  split; [exact predictions_select_fails|exact W].
Defined.




(** ** The name of the mask image *)

Lemma list_ascii_of_append (s1 s2 : string) :
  list_ascii_of_string (s1 ++ s2) =
  (list_ascii_of_string s1 ++ list_ascii_of_string s2)%list.
Proof. induction s1 as [|c s1 IH]; cbn; [reflexivity|now rewrite IH]. Qed.

Lemma span_plain_all (l rest : list ascii) (c : ascii) :
  forallb plain_char l = true -> plain_char c = false ->
  span_plain (l ++ c :: rest) = (l, c :: rest).
Proof.
  intros Hl Hc. induction l as [|a l IH]; cbn.
  - now rewrite Hc.
  - cbn in Hl. apply andb_true_iff in Hl. destruct Hl as [Ha Hl].
    rewrite Ha, (IH Hl). reflexivity.
Qed.

Lemma span_plain_whole (l : list ascii) :
  forallb plain_char l = true -> span_plain l = (l, []).
Proof.
  intros Hl. induction l as [|a l IH]; cbn; [reflexivity|].
  cbn in Hl. apply andb_true_iff in Hl. destruct Hl as [Ha Hl].
  rewrite Ha, (IH Hl). reflexivity.
Qed.

Lemma plain_chars (s : string) :
  plain s = forallb plain_char (list_ascii_of_string s).
Proof. induction s as [|c s IH]; cbn; [reflexivity|now rewrite IH]. Qed.

Lemma forallb_rev {A} (f : A -> bool) (l : list A) :
  forallb f (rev l) = forallb f l.
Proof.
  induction l as [|a l IH]; cbn; [reflexivity|].
  rewrite forallb_app, IH. cbn. rewrite andb_true_r. apply andb_comm.
Qed.

Lemma rev_of_append (s1 s2 : string) :
  rev (list_ascii_of_string (s1 ++ s2)) =
  (rev (list_ascii_of_string s2) ++ rev (list_ascii_of_string s1))%list.
Proof. rewrite list_ascii_of_append. apply rev_app_distr. Qed.

(** X14.  The key of the mask image is derived from the input URL by
    [replace(/\.[^/.]+$/, "")]: a final extension, that is a dot followed to
    the end by one or more characters other than the slash and the dot, is
    cut off.  A string whose last segment has no dot, even when an earlier
    segment has one, and a string that ends with a dot are left as they
    are. *)
Theorem mask_name_cuts_the_extension (stem ext : string) :
  plain ext = true ->
  (ext <> "" -> strip_extension (stem ++ String "." ext) = stem) /\
  strip_extension (stem ++ String "/" ext) = stem ++ String "/" ext /\
  strip_extension ext = ext /\
  strip_extension (stem ++ ".") = stem ++ ".".
Proof.
  intros Hext. rewrite plain_chars in Hext.
  assert (Hrev : forallb plain_char (rev (list_ascii_of_string ext)) = true)
    by now rewrite forallb_rev.
  split; [|split; [|split]].
  - intros Hne. unfold strip_extension.
    rewrite rev_of_append. cbn [list_ascii_of_string rev].
    rewrite <- app_assoc. cbn [app].
    rewrite (span_plain_all _ _ "."%char Hrev eq_refl).
    destruct (rev (list_ascii_of_string ext)) as [|c l] eqn:Hl.
    + exfalso. apply Hne.
      apply (f_equal (@rev ascii)) in Hl. rewrite rev_involutive in Hl.
      apply (f_equal string_of_list_ascii) in Hl.
      now rewrite string_of_list_ascii_of_string in Hl.
    + cbn. rewrite rev_involutive. apply string_of_list_ascii_of_string.
  - unfold strip_extension.
    rewrite rev_of_append. cbn [list_ascii_of_string rev].
    rewrite <- app_assoc. cbn [app].
    rewrite (span_plain_all _ _ "/"%char Hrev eq_refl).
    destruct (rev (list_ascii_of_string ext)); reflexivity.
  - unfold strip_extension. rewrite (span_plain_whole _ Hrev).
    destruct (rev (list_ascii_of_string ext)); reflexivity.
  - unfold strip_extension.
    rewrite rev_of_append. cbn. reflexivity.
Qed.

Lemma mask_name_cuts_the_extension_witness :
  plain "png" = true /\
  strip_extension ("https://cdn.example/abc-123/in" ++ String "." "png") =
  "https://cdn.example/abc-123/in".
Proof.
  pose proof (mask_name_cuts_the_extension "https://cdn.example/abc-123/in" "png" eq_refl)
    as (W & _).
  split; [reflexivity|]. apply W. discriminate.
Defined.

(** ** What the first version's pipeline may call *)

(** X15.  When the first version's pipeline ends on an exception, the
    deletion of the identity was not acknowledged: either the call was
    never reached or it is the call that rejected.  When the pipeline
    completes, the identity deletion was its last call and the provider
    answered it, with or without an error. *)
Theorem V1_failure_leaves_the_identity (E : Env) (uid : string) (h : Heap E) :
  (forall reason,
     outcome (V1.deleteUserData E uid h) = Thrown reason ->
     identity_not_acknowledged (calls (V1.deleteUserData E uid h))) /\
  (outcome (V1.deleteUserData E uid h) = Normal tt ->
   exists body o,
     calls (V1.deleteUserData E uid h) = (body ++ [mkEvent (DeleteUser uid) o])%list /\
     answered o = true).
Proof.
  destruct (V1_deleteUserData_shape E uid h)
    as [(Hq & reason & Hthrown)
       |(body & oA & Hcalls & Hq & _ & [(Hn & Ha)|((reason & Hthrown) & Ht)])];
    cbv zeta in *.
  - split.
    + intros _ _. apply Forall_forall. intros ev Hin Hev.
      rewrite no_DeleteUser_spec in Hq. rewrite (Hq ev Hin) in Hev. discriminate.
    + intros Hn. rewrite Hthrown in Hn. discriminate.
  - split.
    + intros reason Hthrown. rewrite Hn in Hthrown. discriminate.
    + intros _. eauto.
  - split.
    + intros _ _. rewrite Hcalls. apply Forall_forall. intros ev Hin Hev.
      apply in_app_or in Hin. destruct Hin as [Hin|[<-|[]]].
      * rewrite no_DeleteUser_spec in Hq. rewrite (Hq ev Hin) in Hev. discriminate.
      * exact Ht.
    + intros Hn. rewrite Hthrown in Hn. discriminate.
Qed.

Lemma null_images_pipeline_throws :
  outcome (V1.deleteUserData null_images_env "abc-123" null_images_heap) =
  Thrown "TypeError".
Proof. reflexivity. Qed.

Lemma V1_failure_leaves_the_identity_witness :
  outcome (V1.deleteUserData null_images_env "abc-123" null_images_heap) =
  Thrown "TypeError" /\
  identity_not_acknowledged
    (calls (V1.deleteUserData null_images_env "abc-123" null_images_heap)).
Proof.
  pose proof (proj1 (V1_failure_leaves_the_identity
                       null_images_env "abc-123" null_images_heap)
                _ null_images_pipeline_throws) as W.
  split; [exact null_images_pipeline_throws|exact W].
Defined.

Section Scope.
Variable E : Env.
Variable P : Call -> bool.

Lemma issues_only_ret {A} (v : A) : issues_only P (ret (E:=E) v).
Proof. intros h. reflexivity. Qed.

Lemma issues_only_throw {A} reason : issues_only P (throw (E:=E) (A:=A) reason).
Proof. intros h. reflexivity. Qed.

Lemma issues_only_await {A} c (op : World E -> Promise A * World E) summary :
  P c = true -> issues_only P (await E c op summary).
Proof.
  intros Hc h. rewrite await_run.
  destruct (fst (op (world h))); cbn; now rewrite Hc.
Qed.

Lemma issues_only_bind {A B} (m : M E A) (k : A -> M E B) :
  issues_only P m -> (forall v, issues_only P (k v)) -> issues_only P (bind m k).
Proof.
  intros Hm Hk h. rewrite calls_bind, forallb_app, Hm.
  destruct (outcome (m h)); [apply Hk|reflexivity].
Qed.

Lemma issues_only_try_catch {A} (m : M E A) handler :
  issues_only P m -> (forall reason, issues_only P (handler reason)) ->
  issues_only P (try_catch m handler).
Proof.
  intros Hm Hk h. rewrite calls_try_catch, forallb_app, Hm.
  destruct (outcome (m h)); [reflexivity|apply Hk].
Qed.

Lemma issues_only_for_of {A} (xs : list A) (body : A -> M E unit) :
  (forall x, issues_only P (body x)) -> issues_only P (for_of xs body).
Proof.
  intros Hb. induction xs as [|x xs IH]; cbn [for_of].
  - apply issues_only_ret.
  - apply issues_only_bind; auto.
Qed.

Lemma issues_only_if {A} (b : bool) (m m' : M E A) :
  issues_only P m -> issues_only P m' -> issues_only P (if b then m else m').
Proof. destruct b; auto. Qed.
End Scope.

(** X16.  Whatever the backends answer, the first version's pipeline for a
    subject issues no call outside these: selects on the predictions and
    trainings tables filtered by the subject's id, deletes by row id on
    those two tables, deletes filtered by the subject's id on the
    push-token, credits and transactions tables, the listing of the
    subject's prefix, deletes of objects, and the deletion of the subject's
    own identity. *)
Theorem V1_pipeline_stays_in_scope (E : Env) (uid : string) :
  issues_only (V1_scope uid) (V1.deleteUserData E uid).
Proof.
  assert (Hawait : forall A c (op : World E -> Promise A * World E) summary,
            V1_scope uid c = true -> issues_only (V1_scope uid) (await E c op summary))
    by (intros; now apply issues_only_await).
  assert (Hobject : forall url, issues_only (V1_scope uid) (V1.deleteR2Object E url)).
  { intros url. unfold V1.deleteR2Object, bucket_delete.
    destruct url as [u|]; [destruct (URL_pathname E u)|];
      try apply issues_only_throw.
    apply issues_only_try_catch; [now apply Hawait|].
    intros _. apply issues_only_ret. }
  assert (Hrow : forall table column value,
            V1_scope uid (Delete table column value) = true ->
            issues_only (V1_scope uid)
              (from_delete_eq E table column value ;; ret tt)).
  { intros table column value Hs. unfold from_delete_eq.
    apply issues_only_bind; [now apply Hawait|]. intros _. apply issues_only_ret. }
  assert (Hself : String.eqb uid uid = true) by apply String.eqb_refl.
  assert (Hp : issues_only (V1_scope uid) (V1.deletePredictions E uid)).
  { unfold V1.deletePredictions, from_select_predictions.
    apply issues_only_bind; [apply Hawait; cbn; now rewrite Hself|].
    intros [predictions|message]; [|apply issues_only_ret].
    apply issues_only_for_of. intros prediction.
    apply issues_only_bind; [|intros _; apply issues_only_bind; [|intros _]].
    + destruct (V1.truthy_string _); [|apply issues_only_ret].
      apply issues_only_bind; [|intros _]; apply Hobject.
    + destruct (output_url prediction); [|apply issues_only_ret].
      apply issues_only_for_of. intros url. apply Hobject.
    + now apply Hrow. }
  assert (Ht : issues_only (V1_scope uid) (V1.deleteTrainings E uid)).
  { unfold V1.deleteTrainings, from_select_trainings.
    apply issues_only_bind; [apply Hawait; cbn; now rewrite Hself|].
    intros [trainings|message]; [|apply issues_only_ret].
    apply issues_only_for_of. intros training.
    apply issues_only_bind; [apply Hobject|]. intros _. now apply Hrow. }
  assert (Hk : issues_only (V1_scope uid) (V1.deletePushToken E uid)).
  { apply Hrow. cbn. now rewrite Hself. }
  assert (Hc : issues_only (V1_scope uid) (V1.deleteCoinsAndTransactions E uid)).
  { unfold V1.deleteCoinsAndTransactions, from_delete_eq.
    apply issues_only_bind; [apply Hawait; cbn; now rewrite Hself|]. intros _.
    apply Hrow. cbn. now rewrite Hself. }
  assert (Hf : issues_only (V1_scope uid) (V1.deleteUserFolder E uid)).
  { unfold V1.deleteUserFolder, bucket_list, bucket_delete.
    apply issues_only_try_catch; [|intros _; apply issues_only_ret].
    apply issues_only_bind; [apply Hawait; cbn; apply String.eqb_refl|].
    intros objects. apply issues_only_if; [now apply Hawait|apply issues_only_ret]. }
  assert (Ha : issues_only (V1_scope uid) (V1.deleteUserAuth E uid)).
  { unfold V1.deleteUserAuth, admin_deleteUser.
    apply issues_only_bind; [apply Hawait; cbn; exact Hself|].
    intros _. apply issues_only_ret. }
  unfold V1.deleteUserData.
  repeat (apply issues_only_bind; [assumption|intros _]). assumption.
Qed.

(** ** The stores after a run of the second version on healthy backends *)

Lemma after_healthy_run_erased (limit : nat) (uid : string) (s : Store) :
  after_healthy_run limit uid s = erased_store limit uid s.
Proof.
  unfold after_healthy_run, healthy_heap, start.
  now destruct (healthy_V2_deleteUserData limit uid s []) as [_ ->].
Qed.

Lemma rows_without_each keys (s : Store) : rows (without_each keys s) = rows s.
Proof.
  unfold without_each. revert s. induction keys as [|key keys IH]; intros s;
    [reflexivity|]. cbn [fold_left]. now rewrite IH.
Qed.

Lemma sessions_without_each keys (s : Store) : sessions (without_each keys s) = sessions s.
Proof.
  unfold without_each. revert s. induction keys as [|key keys IH]; intros s;
    [reflexivity|]. cbn [fold_left]. now rewrite IH.
Qed.

Lemma rows_erased_store limit uid (s : Store) :
  rows (erased_store limit uid s) = rows (without_subject_rows uid s).
Proof.
  unfold erased_store. cbv zeta. set (s2 := without_each _ _).
  assert (H2 : rows s2 = rows (without_subject_rows uid s))
    by apply rows_without_each.
  destruct (mem_string uid (users s2)); exact H2.
Qed.

Lemma sessions_erased_store limit uid (s : Store) :
  sessions (erased_store limit uid s) = sessions s.
Proof.
  unfold erased_store. cbv zeta. set (s2 := without_each _ _).
  assert (H2 : sessions s2 = sessions s)
    by (unfold s2; rewrite sessions_without_each; reflexivity).
  destruct (mem_string uid (users s2)); exact H2.
Qed.

Lemma objects_erased_store limit uid (s : Store) k :
  In k (objects (erased_store limit uid s)) <->
  In k (objects s) /\ ~ In k (page limit (uid ++ "/") s).
Proof.
  unfold erased_store. cbv zeta. set (s2 := without_each _ _).
  assert (H2 : In k (objects s2) <->
               In k (objects s) /\ ~ In k (page limit (uid ++ "/") s)).
  { unfold s2. rewrite objects_without_each. reflexivity. }
  destruct (mem_string uid (users s2)); exact H2.
Qed.

Lemma users_erased_store limit uid (s : Store) u :
  In u (users (erased_store limit uid s)) <-> In u (users s) /\ u <> uid.
Proof.
  unfold erased_store. cbv zeta. set (s2 := without_each _ _).
  assert (H2 : users s2 = users s)
    by (unfold s2; rewrite users_without_each; reflexivity).
  destruct (mem_string uid (users s2)) eqn:Hmem.
  - unfold without_user. cbn [users]. rewrite filter_In, H2, negb_true_iff.
    rewrite String.eqb_neq. reflexivity.
  - rewrite H2 in *. split; [|tauto]. intros Hin. split; [exact Hin|].
    intros ->. apply mem_string_In in Hin. congruence.
Qed.

Lemma rows_without_subject_rows uid (s : Store) table r :
  In (table, r) (rows (without_subject_rows uid s)) <->
  In (table, r) (rows s) /\ ~ (In table relational_tables /\ row_user_id r = uid).
Proof.
  unfold without_subject_rows, relational_tables, without_rows.
  cbn [fold_left rows]. rewrite !filter_In.
  unfold row_matches, column_of. cbn [fst snd String.eqb Ascii.eqb Bool.eqb].
  rewrite !negb_true_iff, !andb_false_iff, !String.eqb_neq.
  cbn [In]. split.
  - intros (((((Hin & H1) & H2) & H3) & H4) & H5). split; [exact Hin|].
    intros ([<-|[<-|[<-|[<-|[<-|[]]]]]] & Hu); tauto.
  - intros (Hin & Hnot).
    destruct (string_dec (row_user_id r) uid) as [Hu|Hu]; [|tauto].
    repeat split; try exact Hin; left; intros Heq; apply Hnot;
      (split; [subst table; tauto|exact Hu]).
Qed.

Lemma In_firstn {A} (n : nat) (l : list A) (x : A) : In x (firstn n l) -> In x l.
Proof.
  revert l. induction n as [|n IH]; intros [|a l]; cbn; try tauto.
  intros [->|H]; auto.
Qed.

Lemma page_under_prefix limit prefix (s : Store) k :
  In k (page limit prefix s) -> String.prefix prefix k = true.
Proof.
  unfold page. intros Hin. apply In_firstn in Hin.
  apply filter_In in Hin. tauto.
Qed.

(** X17.  After a run of the second version's pipeline on healthy
    backends, no row of the five tables carries the subject's id, the
    subject's identity is gone, and no key of the listed page is left in
    the bucket. *)
Theorem healthy_run_erases_the_subject (limit : nat) (s : Store) (uid : string) :
  (forall table r,
     In table relational_tables -> row_user_id r = uid ->
     ~ In (table, r) (rows (after_healthy_run limit uid s))) /\
  ~ In uid (users (after_healthy_run limit uid s)) /\
  (forall k,
     In k (page limit (uid ++ "/") s) ->
     ~ In k (objects (after_healthy_run limit uid s))).
Proof.
  rewrite after_healthy_run_erased. split; [|split].
  - intros table r Ht Hu Hin. rewrite rows_erased_store in Hin.
    apply rows_without_subject_rows in Hin. tauto.
  - intros Hin. apply users_erased_store in Hin. tauto.
  - intros k Hk Hin. apply objects_erased_store in Hin. tauto.
Qed.

Lemma healthy_run_erases_the_subject_witness :
  In "push_tokens" relational_tables /\
  row_user_id subject_push_token = "abc-123" /\
  ~ In ("push_tokens", subject_push_token) (rows (after_healthy_run 2 "abc-123" sample_store)).
Proof.
  assert (Ht : In "push_tokens" relational_tables) by (cbn; tauto).
  pose proof (proj1 (healthy_run_erases_the_subject 2 sample_store "abc-123")
                "push_tokens" subject_push_token Ht eq_refl) as W.
  split; [exact Ht|]. split; [reflexivity|exact W].
Defined.

(** X18.  Such a run leaves everything else in place: the rows of other
    subjects and of other tables, the other identities, the sessions, and
    every object whose key does not start with the subject's prefix. *)
Theorem healthy_run_spares_the_others (limit : nat) (s : Store) (uid : string) :
  (forall table r,
     In (table, r) (rows s) ->
     ~ In table relational_tables \/ row_user_id r <> uid ->
     In (table, r) (rows (after_healthy_run limit uid s))) /\
  (forall u, In u (users s) -> u <> uid -> In u (users (after_healthy_run limit uid s))) /\
  (forall k,
     In k (objects s) -> String.prefix (uid ++ "/") k = false ->
     In k (objects (after_healthy_run limit uid s))) /\
  sessions (after_healthy_run limit uid s) = sessions s.
Proof.
  rewrite after_healthy_run_erased. split; [|split; [|split]].
  - intros table r Hin Hother. rewrite rows_erased_store.
    apply rows_without_subject_rows. tauto.
  - intros u Hin Hu. apply users_erased_store. tauto.
  - intros k Hin Hp. apply objects_erased_store. split; [exact Hin|].
    intros Hk. apply page_under_prefix in Hk. congruence.
  - apply sessions_erased_store.
Qed.

Lemma other_push_token_stored : In other_push_token (rows sample_store).
Proof. cbn. tauto. Qed.

Lemma healthy_run_spares_the_others_witness :
  In other_push_token (rows sample_store) /\
  row_user_id (snd other_push_token) <> "abc-123" /\
  In other_push_token (rows (after_healthy_run 2 "abc-123" sample_store)).
Proof.
  assert (Hu : row_user_id (snd other_push_token) <> "abc-123") by discriminate.
  pose proof (proj1 (healthy_run_spares_the_others 2 sample_store "abc-123")
                _ _ other_push_token_stored (or_intror Hu)) as W.
  split; [exact other_push_token_stored|]. split; [exact Hu|exact W].
Defined.
